(** * Plan details screen: derived status, duration, workouts per week
      and template names

    Shallow embedding of the four derived-value closures of
    [app/plan-details/[id].tsx] (getTemplateName, getPlanStatus,
    getDuration, getWorkoutsPerWeek) together with the part of the
    JavaScript runtime they call: relational comparison of strings, the
    Date object (parsing of calendar dates, toISOString) and the
    conversion of numbers to strings. *)

From Stdlib Require Import ZArith NArith List Bool Lia.
From Stdlib Require Import Strings.String Strings.Ascii Numbers.DecimalString.
From Stdlib Require Import Sorting.Permutation.
Import ListNotations.

Open Scope string_scope.
Open Scope Z_scope.

(** ** The JavaScript runtime used by the screen *)

Module JS.

(** *** Strings

    A string is its sequence of code units.  [x < y] on two strings is the
    abstract operation IsLessThan: when one string is a prefix of the other
    the shorter one is smaller, otherwise the first differing code unit
    decides. *)

Definition code_unit (c : ascii) : N := N_of_ascii c.

Fixpoint str_lt (x y : string) : bool :=
  match x, y with
  | _, EmptyString => false
  | EmptyString, String _ _ => true
  | String a x', String b y' =>
      if (code_unit a =? code_unit b)%N then str_lt x' y'
      else (code_unit a <? code_unit b)%N
  end.

(** [x > y] evaluates IsLessThan with the operands exchanged. *)
Definition str_gt (x y : string) : bool := str_lt y x.

(** The lexicographic order on code-unit sequences, as a relation. *)
Inductive lex_lt : string -> string -> Prop :=
| lex_prefix : forall b y, lex_lt EmptyString (String b y)
| lex_head : forall a b x y,
    (code_unit a < code_unit b)%N -> lex_lt (String a x) (String b y)
| lex_tail : forall a x y, lex_lt x y -> lex_lt (String a x) (String a y).

Definition lex_le (x y : string) : Prop := x = y \/ lex_lt x y.

(** String.prototype.split with a one-character separator. *)
Fixpoint split (sep : ascii) (s : string) : list string :=
  match s with
  | EmptyString => [EmptyString]
  | String c s' =>
      if Ascii.eqb c sep then EmptyString :: split sep s'
      else match split sep s' with
           | [] => [String c EmptyString]
           | hd :: tl => String c hd :: tl
           end
  end.

(** Array index [0]; [split] never returns the empty array. *)
Definition first (l : list string) : string :=
  match l with
  | [] => EmptyString
  | x :: _ => x
  end.

(** ToBoolean on a string and on a [string | null] value: the empty string
    and null (or undefined, also [None]) are falsy. *)
Definition truthy_string (s : string) : bool :=
  match s with
  | EmptyString => false
  | String _ _ => true
  end.

Definition truthy (v : option string) : bool :=
  match v with
  | Some s => truthy_string s
  | None => false
  end.

(** [x === y] between a string and a [string | null] value. *)
Definition strict_eq (x : string) (y : option string) : bool :=
  match y with
  | Some s => String.eqb x s
  | None => false
  end.

(** [v || d] where [v] is a string, null or undefined. *)
Definition or_else (v : option string) (d : string) : string :=
  match v with
  | Some s => if truthy_string s then s else d
  | None => d
  end.

(** *** Numbers

    The numbers the screen computes with are time values and day counts:
    integers, or NaN.  [None] is NaN. *)

Definition number : Type := option Z.

Definition NaN : number := None.

(** Rounding of an integer to the nearest double, ties to even.  Every
    integer up to 2^53 in magnitude is a double; between 2^53 and 2^54 the
    doubles are the even integers and a tie goes to the multiple of 4.  A
    difference of two time values stays below 2^54 in magnitude. *)
Definition round_double (n : Z) : Z :=
  if Z.abs n <=? 2 ^ 53 then n
  else if Z.even n then n
  else if n mod 4 =? 1 then n - 1 else n + 1.

Definition num_sub (x y : number) : number :=
  match x, y with
  | Some a, Some b => Some (round_double (a - b))
  | _, _ => NaN
  end.

Definition Math_abs (x : number) : number :=
  match x with
  | Some a => Some (Z.abs a)
  | None => NaN
  end.

(** [Math.ceil(x / d)] and [Math.floor(x / d)] for a positive integer
    constant [d].  The quotient itself need not be an integer; for the
    magnitudes reached here (x below 2^54, d = 86400000, 7 or 30) the
    correctly rounded quotient lies strictly between the same two integers
    as the exact one, so its ceiling and floor are those of the exact
    quotient. *)
Definition Math_ceil_quot (x : number) (d : Z) : number :=
  match x with
  | Some a => Some (- ((- a) / d))
  | None => NaN
  end.

Definition Math_floor_quot (x : number) (d : Z) : number :=
  match x with
  | Some a => Some (a / d)
  | None => NaN
  end.

(** [x < k] and [x > k]: false as soon as an operand is NaN. *)
Definition num_lt (x : number) (k : Z) : bool :=
  match x with
  | Some a => a <? k
  | None => false
  end.

Definition num_gt (x : number) (k : Z) : bool :=
  match x with
  | Some a => k <? a
  | None => false
  end.

(** Number::toString, radix 10, on an integer below 10^21 or NaN. *)
Definition num_to_string (x : number) : string :=
  match x with
  | Some a => NilZero.string_of_int (Z.to_int a)
  | None => "NaN"
  end.

(** *** Dates: days, years, months (ECMA-262, Date objects) *)

Definition msPerDay : Z := 86400000.
Definition msPerHour : Z := 3600000.
Definition msPerMinute : Z := 60000.
Definition msPerSecond : Z := 1000.

Definition Day (t : Z) : Z := t / msPerDay.

Definition DaysInYear (y : Z) : Z :=
  if negb (y mod 4 =? 0) then 365
  else if negb (y mod 100 =? 0) then 366
  else if negb (y mod 400 =? 0) then 365
  else 366.

Definition DayFromYear (y : Z) : Z :=
  365 * (y - 1970) + (y - 1969) / 4 - (y - 1901) / 100 + (y - 1601) / 400.

(** The largest year whose first day is not after the day of [t]: the
    estimate from the mean year length is off by at most one. *)
Definition YearFromTime (t : Z) : Z :=
  let d := Day t in
  let y := 1970 + (400 * d) / 146097 in
  if DayFromYear (y + 1) <=? d then y + 1
  else if DayFromYear y <=? d then y
  else y - 1.

Definition InLeapYear (t : Z) : Z :=
  if DaysInYear (YearFromTime t) =? 366 then 1 else 0.

Definition DayWithinYear (t : Z) : Z := Day t - DayFromYear (YearFromTime t).

(** Day within the year on which month [m] (0 = January) begins. *)
Definition MonthStart (leap m : Z) : Z :=
  match m with
  | 0 => 0
  | 1 => 31
  | 2 => 59 + leap
  | 3 => 90 + leap
  | 4 => 120 + leap
  | 5 => 151 + leap
  | 6 => 181 + leap
  | 7 => 212 + leap
  | 8 => 243 + leap
  | 9 => 273 + leap
  | 10 => 304 + leap
  | 11 => 334 + leap
  | _ => 365 + leap
  end.

Definition MonthFromTime (t : Z) : Z :=
  let d := DayWithinYear t in
  let l := InLeapYear t in
  if d <? MonthStart l 1 then 0
  else if d <? MonthStart l 2 then 1
  else if d <? MonthStart l 3 then 2
  else if d <? MonthStart l 4 then 3
  else if d <? MonthStart l 5 then 4
  else if d <? MonthStart l 6 then 5
  else if d <? MonthStart l 7 then 6
  else if d <? MonthStart l 8 then 7
  else if d <? MonthStart l 9 then 8
  else if d <? MonthStart l 10 then 9
  else if d <? MonthStart l 11 then 10
  else 11.

Definition DateFromTime (t : Z) : Z :=
  DayWithinYear t - MonthStart (InLeapYear t) (MonthFromTime t) + 1.

Definition HourFromTime (t : Z) : Z := (t / msPerHour) mod 24.
Definition MinFromTime (t : Z) : Z := (t / msPerMinute) mod 60.
Definition SecFromTime (t : Z) : Z := (t / msPerSecond) mod 60.
Definition msFromTime (t : Z) : Z := t mod msPerSecond.

(** MakeDay on a year, a month (0 = January) in range and a day of the
    month, and MakeDate of that day at time 0. *)
Definition MakeDay (year month date : Z) : Z :=
  let leap := if DaysInYear year =? 366 then 1 else 0 in
  DayFromYear year + MonthStart leap month + date - 1.

Definition MakeDate (day time : Z) : Z := day * msPerDay + time.

Definition DaysInMonth (year month : Z) : Z :=
  let leap := if DaysInYear year =? 366 then 1 else 0 in
  MonthStart leap (month + 1) - MonthStart leap month.

Definition TimeClip (x : number) : number :=
  match x with
  | Some t => if Z.abs t <=? 8640000000000000 then Some t else NaN
  | None => NaN
  end.

(** *** Date objects *)

Record Date : Type := { DateValue : number }.

Definition getTime (d : Date) : number := DateValue d.

(** An operation either returns a value or throws. *)
Inductive completion (A : Type) : Type :=
| Normal (value : A)
| Throw (error : string).

Arguments Normal {A} value.
Arguments Throw {A} error.

Definition bind {A B : Type} (c : completion A) (k : A -> completion B)
  : completion B :=
  match c with
  | Normal v => k v
  | Throw err => Throw err
  end.

(** [new Date()]: the current time value of the system clock. *)
Definition Date_now (clock : Z) : Date := {| DateValue := Some clock |}.

Fixpoint zeros (n : nat) : string :=
  match n with
  | O => EmptyString
  | S k => String "0" (zeros k)
  end.

(** Decimal digits of a non-negative integer, padded with zeros on the
    left to at least [width] characters. *)
Definition padded (width : nat) (n : Z) : string :=
  let s := NilZero.string_of_uint (N.to_uint (Z.to_N n)) in
  zeros (width - String.length s) ++ s.

(** The year of the Date Time String Format: four digits from 0 to 9999,
    otherwise a sign and six digits. *)
Definition isoYear (y : Z) : string :=
  if (0 <=? y) && (y <=? 9999) then padded 4 y
  else if y <? 0 then "-" ++ padded 6 (- y)
  else "+" ++ padded 6 y.

Definition isoString (t : Z) : string :=
  isoYear (YearFromTime t) ++ "-" ++ padded 2 (MonthFromTime t + 1)
    ++ "-" ++ padded 2 (DateFromTime t)
    ++ "T" ++ padded 2 (HourFromTime t) ++ ":" ++ padded 2 (MinFromTime t)
    ++ ":" ++ padded 2 (SecFromTime t) ++ "." ++ padded 3 (msFromTime t)
    ++ "Z".

(** Date.prototype.toISOString: a RangeError on an invalid date. *)
Definition toISOString (d : Date) : completion string :=
  match DateValue d with
  | Some t => Normal (isoString t)
  | None => Throw "RangeError"
  end.

(** *** Parsing a calendar date

    The date-only form YYYY-MM-DD of the Date Time String Format, read as
    midnight UTC.  [None] when the string is not of that form or names a
    day the month does not have. *)

Definition digit (c : ascii) : option Z :=
  let n := code_unit c in
  if ((48 <=? n) && (n <=? 57))%N then Some (Z.of_N n - 48) else None.

Definition digits2 (a b : ascii) : option Z :=
  match digit a, digit b with
  | Some x, Some y => Some (10 * x + y)
  | _, _ => None
  end.

Definition digits4 (a b c d : ascii) : option Z :=
  match digits2 a b, digits2 c d with
  | Some x, Some y => Some (100 * x + y)
  | _, _ => None
  end.

Definition parseISODate (s : string) : option Z :=
  match s with
  | String y1 (String y2 (String y3 (String y4 (String sep1
      (String m1 (String m2 (String sep2
        (String d1 (String d2 EmptyString))))))))) =>
      if Ascii.eqb sep1 "-" && Ascii.eqb sep2 "-" then
        match digits4 y1 y2 y3 y4, digits2 m1 m2, digits2 d1 d2 with
        | Some y, Some m, Some d =>
            if (1 <=? m) && (m <=? 12) && (1 <=? d)
               && (d <=? DaysInMonth y (m - 1))
            then Some (MakeDate (MakeDay y (m - 1) d) 0)
            else None
        | _, _, _ => None
        end
      else None
  | _ => None
  end.

End JS.

Notation "x <- c ;; k" := (JS.bind c (fun x => k))
  (at level 61, c at next level, right associativity).

(** ** The plan details screen *)

Inductive DayOfWeek : Type :=
| Monday | Tuesday | Wednesday | Thursday | Friday | Saturday | Sunday.

Definition daysOfWeek : list DayOfWeek :=
  [Monday; Tuesday; Wednesday; Thursday; Friday; Saturday; Sunday].

(** Modelled from the spec: the type of a plan's schedule (declared in
    types/workout, which is not among the sources) maps each of the seven
    weekday labels to an optional template identifier, null meaning a rest
    day. *)
Definition Schedule : Type := DayOfWeek -> option string.

(** The plan the screen holds, with the fields [loadPlanDetails] gives it. *)
Record WorkoutPlan : Type := {
  planId : string;
  clientId : string;
  trainerId : string;
  planName : string;
  startDate : string;
  endDate : string;
  schedule : Schedule;
  createdAt : string;
  updatedAt : string
}.

(** Modelled from the spec: a template record (the screen holds them as
    [any[]]) has an identifier and a display name. *)
Module Template.
Record t : Type := { id : string; name : string }.
End Template.

(** The fields of the colour palette that [getPlanStatus] reads. *)
Record Colors : Type := {
  textSecondary : string;
  success : string;
  warning : string;
  primary : string
}.

(** What the closures of the component see when they are called: the
    component state, the palette of the current colour scheme and the
    system clock (milliseconds since the epoch). *)
Record Env : Type := {
  plan : option WorkoutPlan;
  templates : list Template.t;
  colors : Colors;
  now : Z
}.

Record PlanStatus : Type := { status : string; color : string }.

(** [Object.values] of a schedule. *)
Definition Object_values (s : Schedule) : list (option string) :=
  map s daysOfWeek.

(** The calendar date of a time value in the Date Time String Format,
    YYYY-MM-DD in UTC. *)
Definition utcDate (t : Z) : string :=
  JS.isoYear (JS.YearFromTime t) ++ "-" ++ JS.padded 2 (JS.MonthFromTime t + 1)
    ++ "-" ++ JS.padded 2 (JS.DateFromTime t).

Section Screen.

(** What [new Date(s)] makes of a string that is not a calendar date
    YYYY-MM-DD: the other forms of the format and, beyond them, whatever
    the engine recognises (in the local time zone). *)
Variable engineParse : string -> JS.number.

Definition Date_parse (s : string) : JS.number :=
  match JS.parseISODate s with
  | Some t => Some t
  | None => JS.TimeClip (engineParse s)
  end.

Definition new_Date (s : string) : JS.Date :=
  {| JS.DateValue := Date_parse s |}.

Definition getTemplateName (e : Env) (templateId : option string) : string :=
  if negb (JS.truthy templateId) then "Rest Day"
  else
    let template :=
      find (fun t => JS.strict_eq (Template.id t) templateId) (templates e) in
    JS.or_else (option_map Template.name template) "Unknown Template".

Definition getPlanStatus (e : Env) : JS.completion PlanStatus :=
  match plan e with
  | None =>
      JS.Normal {| status := "Unknown"; color := textSecondary (colors e) |}
  | Some p =>
      iso <- JS.toISOString (JS.Date_now (now e)) ;;
      let today := JS.first (JS.split "T" iso) in
      if JS.str_lt (endDate p) today then
        JS.Normal {| status := "Completed"; color := success (colors e) |}
      else if JS.str_gt (startDate p) today then
        JS.Normal {| status := "Upcoming"; color := warning (colors e) |}
      else
        JS.Normal {| status := "Active"; color := primary (colors e) |}
  end.

Definition getDuration (e : Env) : string :=
  match plan e with
  | None => ""
  | Some p =>
      let start := new_Date (startDate p) in
      let end_ := new_Date (endDate p) in
      let diffTime :=
        JS.Math_abs (JS.num_sub (JS.getTime end_) (JS.getTime start)) in
      let diffDays := JS.Math_ceil_quot diffTime (1000 * 60 * 60 * 24) in
      if JS.num_lt diffDays 7 then
        JS.num_to_string diffDays ++ " days"
      else if JS.num_lt diffDays 30 then
        let weeks := JS.Math_floor_quot diffDays 7 in
        JS.num_to_string weeks ++ " week"
          ++ (if JS.num_gt weeks 1 then "s" else "")
      else
        let months := JS.Math_floor_quot diffDays 30 in
        JS.num_to_string months ++ " month"
          ++ (if JS.num_gt months 1 then "s" else "")
  end.

Definition getWorkoutsPerWeek (e : Env) : Z :=
  match plan e with
  | None => 0
  | Some p =>
      Z.of_nat (List.length (filter JS.truthy (Object_values (schedule p))))
  end.

End Screen.

(** ** The rest of the screen: loading, navigation, the schedule rows *)

(** The client the screen holds, with the fields [loadPlanDetails] gives
    it. *)
Module Client.
Record t : Type := {
  id : string;
  name : string;
  email : string;
  avatar : string;
  joinDate : string;
  trainerId : string
}.
End Client.

(** The rows of lib/planDatabase (not among the sources), with the fields
    [loadPlanDetails] reads from them. *)
Module PlanRow.
Record t : Type := {
  id : string;
  client_id : string;
  trainer_id : string;
  name : string;
  start_date : string;
  end_date : string;
  schedule_data : Schedule;
  created_at : string;
  updated_at : string
}.
End PlanRow.

Module ClientRow.
Record t : Type := {
  id : string;
  full_name : string;
  email : string;
  avatar : string;
  created_at : string;
  trainer_id : option string
}.
End ClientRow.

(** The state hooks of the component, with their initial values. *)
Module Component.
Record State : Type := {
  plan : option WorkoutPlan;
  client : option Client.t;
  templates : list Template.t;
  loading : bool;
  showNotesModal : bool;
  notes : string
}.

Definition initial : State :=
  {| plan := None; client := None; templates := []; loading := true;
     showNotesModal := false; notes := "" |}.
End Component.

(** What the closures see in a given state of the component. *)
Definition envOf (st : Component.State) (c : Colors) (clock : Z) : Env :=
  {| plan := Component.plan st; templates := Component.templates st;
     colors := c; now := clock |}.

(** The three awaited calls of [loadPlanDetails], each by its outcome: a
    value, or a rejection. *)
Record Backend : Type := {
  getWorkoutPlan : string -> JS.completion (option PlanRow.t);
  getTrainerClients : JS.completion (list ClientRow.t);
  getWorkoutTemplatesForPlans : JS.completion (list Template.t)
}.

Inductive LogEntry : Type :=
| LogTemplates (ts : list Template.t)
| LogSchedule (s : Schedule)
| LogError (error : string).

(** The component state and the console, threaded through an action that
    returns or throws. *)
Record World : Type := { state : Component.State; console : list LogEntry }.

Definition Act (A : Type) : Type := World -> JS.completion A * World.

Definition ret {A : Type} (a : A) : Act A := fun w => (JS.Normal a, w).

Definition andThen {A B : Type} (m : Act A) (k : A -> Act B) : Act B :=
  fun w =>
    match m w with
    | (JS.Normal a, w') => k a w'
    | (JS.Throw err, w') => (JS.Throw err, w')
    end.

Notation "x <~ m ;; k" := (andThen m (fun x => k))
  (at level 61, m at next level, right associativity).

(** [await] of a call with a known outcome. *)
Definition await {A : Type} (c : JS.completion A) : Act A := fun w => (c, w).

(** [try { body } catch (error) { handler } finally { final }]. *)
Definition tryCatchFinally (body : Act unit) (handler : string -> Act unit)
    (final : Act unit) : Act unit :=
  fun w =>
    let (r, w1) :=
      match body w with
      | (JS.Normal v, w') => (JS.Normal v, w')
      | (JS.Throw err, w') => handler err w'
      end in
    match final w1 with
    | (JS.Normal _, w2) => (r, w2)
    | (JS.Throw err, w2) => (JS.Throw err, w2)
    end.

Definition modify (f : Component.State -> Component.State) : Act unit :=
  fun w => (JS.Normal tt, {| state := f (state w); console := console w |}).

Definition setPlan (p : option WorkoutPlan) : Act unit :=
  modify (fun st =>
    {| Component.plan := p; Component.client := Component.client st;
       Component.templates := Component.templates st;
       Component.loading := Component.loading st;
       Component.showNotesModal := Component.showNotesModal st;
       Component.notes := Component.notes st |}).

Definition setClient (c : option Client.t) : Act unit :=
  modify (fun st =>
    {| Component.plan := Component.plan st; Component.client := c;
       Component.templates := Component.templates st;
       Component.loading := Component.loading st;
       Component.showNotesModal := Component.showNotesModal st;
       Component.notes := Component.notes st |}).

Definition setTemplates (ts : list Template.t) : Act unit :=
  modify (fun st =>
    {| Component.plan := Component.plan st;
       Component.client := Component.client st;
       Component.templates := ts;
       Component.loading := Component.loading st;
       Component.showNotesModal := Component.showNotesModal st;
       Component.notes := Component.notes st |}).

Definition setLoading (b : bool) : Act unit :=
  modify (fun st =>
    {| Component.plan := Component.plan st;
       Component.client := Component.client st;
       Component.templates := Component.templates st;
       Component.loading := b;
       Component.showNotesModal := Component.showNotesModal st;
       Component.notes := Component.notes st |}).

Definition consoleWrite (entry : LogEntry) : Act unit :=
  fun w =>
    (JS.Normal tt,
     {| state := state w; console := (console w ++ [entry])%list |}).

Definition mapPlan (planData : PlanRow.t) : WorkoutPlan :=
  {| planId := PlanRow.id planData;
     clientId := PlanRow.client_id planData;
     trainerId := PlanRow.trainer_id planData;
     planName := PlanRow.name planData;
     startDate := PlanRow.start_date planData;
     endDate := PlanRow.end_date planData;
     schedule := PlanRow.schedule_data planData;
     createdAt := PlanRow.created_at planData;
     updatedAt := PlanRow.updated_at planData |}.

Definition mapClient (clientData : ClientRow.t) : Client.t :=
  {| Client.id := ClientRow.id clientData;
     Client.name := ClientRow.full_name clientData;
     Client.email := ClientRow.email clientData;
     Client.avatar := ClientRow.avatar clientData;
     Client.joinDate := ClientRow.created_at clientData;
     Client.trainerId := JS.or_else (ClientRow.trainer_id clientData) "" |}.

Definition loadPlanDetails (b : Backend) (id : string) : Act unit :=
  tryCatchFinally
    (planData <~ await (getWorkoutPlan b id) ;;
     match planData with
     | Some row =>
         let mappedPlan := mapPlan row in
         _ <~ setPlan (Some mappedPlan) ;;
         clients <~ await (getTrainerClients b) ;;
         let clientData :=
           find (fun c => String.eqb (ClientRow.id c) (PlanRow.client_id row))
             clients in
         _ <~ setClient (option_map mapClient clientData) ;;
         templatesData <~ await (getWorkoutTemplatesForPlans b) ;;
         _ <~ setTemplates templatesData ;;
         _ <~ consoleWrite (LogTemplates templatesData) ;;
         consoleWrite (LogSchedule (schedule mappedPlan))
     | None => ret tt
     end)
    (fun error => consoleWrite (LogError error))
    (setLoading false).

(** The world in which the effect of the first render runs. *)
Definition freshWorld : World :=
  {| state := Component.initial; console := [] |}.

(** The two early returns of the render and the view after them. *)
Inductive Branch : Type := LoadingView | NotFoundView | DetailsView.

Definition renderBranch (st : Component.State) : Branch :=
  if Component.loading st then LoadingView
  else match Component.plan st with
       | None => NotFoundView
       | Some _ => DetailsView
       end.

(** The client line of the overview, [client?.name || 'Unknown Client']. *)
Definition clientLabel (st : Component.State) : string :=
  JS.or_else (option_map Client.name (Component.client st)) "Unknown Client".

(** Calls on the router. *)
Inductive Nav : Type :=
| Push (route : string)
| Back.

Definition handleStartWorkout (e : Env) (day : DayOfWeek) : list Nav :=
  let templateId :=
    match plan e with
    | Some p => schedule p day
    | None => None
    end in
  match templateId with
  | Some tid =>
      if JS.truthy_string tid then [Push ("/start-workout/" ++ tid)] else []
  | None => []
  end.

(** One row of the weekly schedule: the day, the name shown, whether the
    name takes the rest-day style and whether the Start button is there. *)
Record Row : Type := {
  dayName : DayOfWeek;
  workoutName : string;
  restDay : bool;
  startButton : bool
}.

(** *** The schedule as the object it is at run time

    [Schedule] gives every weekday a slot.  What the screen reads,
    [plan.schedule], is an object with its own keys: a weekday key may be
    missing, and the read [plan.schedule[day]] is then undefined, which is
    not null; and there may be keys that are no weekday.  An object is the
    list of its own keys, each with a template identifier or null; the
    keys of an object are distinct. *)

Definition dayLabel (d : DayOfWeek) : string :=
  match d with
  | Monday => "Monday"
  | Tuesday => "Tuesday"
  | Wednesday => "Wednesday"
  | Thursday => "Thursday"
  | Friday => "Friday"
  | Saturday => "Saturday"
  | Sunday => "Sunday"
  end.

Definition ScheduleObject : Type := list (string * option string).

(** The result of a property read: undefined, or the value held. *)
Inductive Slot : Type :=
| Undefined
| Held (v : option string).

Fixpoint readKey (o : ScheduleObject) (key : string) : Slot :=
  match o with
  | [] => Undefined
  | (k, v) :: o' => if String.eqb k key then Held v else readKey o' key
  end.

(** ToBoolean of a slot, the test [slot !== null], and the slot as the
    argument of [getTemplateName], where [None] already stands for null
    and undefined alike. *)
Definition slot_truthy (s : Slot) : bool :=
  match s with
  | Held v => JS.truthy v
  | Undefined => false
  end.

Definition slot_not_null (s : Slot) : bool :=
  match s with
  | Held None => false
  | Held (Some _) => true
  | Undefined => true
  end.

Definition slot_id (s : Slot) : option string :=
  match s with
  | Held v => v
  | Undefined => None
  end.

(** The object of a typed schedule: the seven weekday keys. *)
Definition ofSchedule (s : Schedule) : ScheduleObject :=
  map (fun d => (dayLabel d, s d)) daysOfWeek.

(** The keys of [o] are distinct weekday names. *)
Definition weekdayKeys (o : ScheduleObject) : Prop :=
  NoDup (map fst o)
  /\ forall k, In k (map fst o) -> exists d, k = dayLabel d.

(** The closures that read the schedule, on the object held in
    [plan?.schedule] ([None] when there is no plan). *)
Module Raw.

Definition Object_values (o : ScheduleObject) : list (option string) :=
  map snd o.

Definition getWorkoutsPerWeek (sched : option ScheduleObject) : Z :=
  match sched with
  | None => 0
  | Some o => Z.of_nat (List.length (filter JS.truthy (Object_values o)))
  end.

Definition handleStartWorkout (sched : option ScheduleObject)
    (day : DayOfWeek) : list Nav :=
  let templateId :=
    match sched with
    | Some o => readKey o (dayLabel day)
    | None => Undefined
    end in
  match templateId with
  | Held (Some tid) =>
      if JS.truthy_string tid then [Push ("/start-workout/" ++ tid)] else []
  | _ => []
  end.

Definition scheduleRow (e : Env) (o : ScheduleObject) (day : DayOfWeek)
  : Row :=
  let templateId := readKey o (dayLabel day) in
  let hasWorkout := slot_not_null templateId in
  {| dayName := day;
     workoutName := getTemplateName e (slot_id templateId);
     restDay := negb hasWorkout;
     startButton := hasWorkout |}.

Definition scheduleRows (e : Env) (o : ScheduleObject) : list Row :=
  map (scheduleRow e o) daysOfWeek.

End Raw.

(** ** Auxiliary notions used to state the properties *)

(** A year, a month (0 = January) and a day of that month. *)
Definition valid_civil (y m d : Z) : Prop :=
  0 <= m <= 11 /\ 1 <= d <= JS.DaysInMonth y m.

(** No code unit of [s] is [c]. *)
Fixpoint free_of (c : ascii) (s : string) : bool :=
  match s with
  | EmptyString => true
  | String a s' => negb (Ascii.eqb a c) && free_of c s'
  end.

(** The look-up predicate of [getTemplateName] at a non-null identifier. *)
Definition has_id (tid : string) (t : Template.t) : bool :=
  JS.strict_eq (Template.id t) (Some tid).

(** The plan with its two dates exchanged, and an environment holding
    another plan. *)
Definition swapDates (p : WorkoutPlan) : WorkoutPlan :=
  {| planId := planId p; clientId := clientId p; trainerId := trainerId p;
     planName := planName p;
     startDate := endDate p; endDate := startDate p;
     schedule := schedule p;
     createdAt := createdAt p; updatedAt := updatedAt p |}.

Definition withPlan (e : Env) (p : option WorkoutPlan) : Env :=
  {| plan := p; templates := templates e; colors := colors e; now := now e |}.

(** The name resolution as the specification words it: null gives the rest
    day, any other identifier is looked up, a hit gives the name found. *)
Definition resolveName_spec (templateId : option string)
    (ts : list Template.t) : string :=
  match templateId with
  | None => "Rest Day"
  | Some tid =>
      match find (fun t => String.eqb (Template.id t) tid) ts with
      | Some t => Template.name t
      | None => "Unknown Template"
      end
  end.

(** The duration as the specification words it: the unit word takes its
    "s" exactly when the count is greater than 1, in each of the three
    branches. *)
Definition plural (n : Z) (unit : string) : string :=
  JS.num_to_string (Some n) ++ " " ++ unit ++ (if 1 <? n then "s" else "").

Definition formatDuration_spec (diffDays : Z) : string :=
  if diffDays <? 7 then plural diffDays "day"
  else if diffDays <? 30 then plural (diffDays / 7) "week"
  else plural (diffDays / 30) "month".

(** ** Calendar dates as strings *)

(** The character of a decimal digit. *)
Definition chr (x : Z) : ascii := ascii_of_N (Z.to_N (x + 48)).

(** YYYY-MM-DD from its eight digits. *)
Definition dateChars (y1 y2 y3 y4 m1 m2 d1 d2 : Z) : string :=
  String (chr y1) (String (chr y2) (String (chr y3) (String (chr y4)
    (String "-" (String (chr m1) (String (chr m2)
      (String "-" (String (chr d1) (String (chr d2) EmptyString))))))))).

(** Year, month and day in the order of the calendar. *)
Definition civil_lt (y1 m1 d1 y2 m2 d2 : Z) : Prop :=
  y1 < y2 \/ (y1 = y2 /\ (m1 < m2 \/ (m1 = m2 /\ d1 < d2))).

(** The string [getDuration] makes of a whole number of days. *)
Definition formatDays (diffDays : Z) : string :=
  if diffDays <? 7 then JS.num_to_string (Some diffDays) ++ " days"
  else if diffDays <? 30 then
    JS.num_to_string (Some (diffDays / 7)) ++ " week"
      ++ (if 1 <? diffDays / 7 then "s" else "")
  else
    JS.num_to_string (Some (diffDays / 30)) ++ " month"
      ++ (if 1 <? diffDays / 30 then "s" else "").

(** ** Sample data *)

Module Sample.

Definition week : Schedule :=
  fun d =>
    match d with
    | Monday => Some "t1"
    | Wednesday => Some "t2"
    | _ => None
    end.

Definition mkPlan (start end_ : string) : WorkoutPlan :=
  {| planId := "plan-1"; clientId := "client-1"; trainerId := "trainer-1";
     planName := "Strength block";
     startDate := start; endDate := end_;
     schedule := week;
     createdAt := "2023-12-20T09:00:00.000Z";
     updatedAt := "2023-12-20T09:00:00.000Z" |}.

Definition light : Colors :=
  {| textSecondary := "#6B7280"; success := "#10B981";
     warning := "#F59E0B"; primary := "#3B82F6" |}.

Definition dark : Colors :=
  {| textSecondary := "#9CA3AF"; success := "#34D399";
     warning := "#FBBF24"; primary := "#60A5FA" |}.

Definition legDay : Template.t :=
  {| Template.id := "t1"; Template.name := "Leg Day" |}.

Definition unnamed : Template.t :=
  {| Template.id := "t2"; Template.name := "" |}.

Definition pushDay : Template.t :=
  {| Template.id := "t3"; Template.name := "Push Day" |}.

(** 2023-12-31, 2024-01-02 (at noon) and 2024-01-05, as time values. *)
Definition dec31 : Z := 1703980800000.
Definition jan02 : Z := 1704196800000.
Definition jan05 : Z := 1704412800000.

Definition env (p : option WorkoutPlan) (c : Colors) (clock : Z) : Env :=
  {| plan := p; templates := [legDay; unnamed; pushDay];
     colors := c; now := clock |}.

(** A plan from 2024-01-01 to 2024-01-03. *)
Definition threeDays : option WorkoutPlan :=
  Some (mkPlan "2024-01-01" "2024-01-03").

(** An engine that recognises nothing beyond calendar dates. *)
Definition strictEngine : string -> JS.number := fun _ => JS.NaN.

End Sample.

(** Sample rows and back ends. *)
Module SampleLoad.

Definition planRow : PlanRow.t :=
  {| PlanRow.id := "plan-1"; PlanRow.client_id := "client-1";
     PlanRow.trainer_id := "trainer-1"; PlanRow.name := "Strength block";
     PlanRow.start_date := "2024-01-01"; PlanRow.end_date := "2024-01-03";
     PlanRow.schedule_data := Sample.week;
     PlanRow.created_at := "2023-12-20T09:00:00.000Z";
     PlanRow.updated_at := "2023-12-20T09:00:00.000Z" |}.

Definition anna : ClientRow.t :=
  {| ClientRow.id := "client-1"; ClientRow.full_name := "Anna";
     ClientRow.email := "anna@example.org"; ClientRow.avatar := "";
     ClientRow.created_at := "2023-11-02T10:00:00.000Z";
     ClientRow.trainer_id := None |}.

Definition ben : ClientRow.t :=
  {| ClientRow.id := "client-2"; ClientRow.full_name := "Ben";
     ClientRow.email := "ben@example.org"; ClientRow.avatar := "";
     ClientRow.created_at := "2023-11-05T10:00:00.000Z";
     ClientRow.trainer_id := Some "trainer-1" |}.

Definition healthy : Backend :=
  {| getWorkoutPlan := fun _ => JS.Normal (Some planRow);
     getTrainerClients := JS.Normal [ben; anna];
     getWorkoutTemplatesForPlans := JS.Normal [Sample.legDay] |}.

Definition missing : Backend :=
  {| getWorkoutPlan := fun _ => JS.Normal None;
     getTrainerClients := JS.Normal [ben; anna];
     getWorkoutTemplatesForPlans := JS.Normal [Sample.legDay] |}.

Definition noClients : Backend :=
  {| getWorkoutPlan := fun _ => JS.Normal (Some planRow);
     getTrainerClients := JS.Throw "Network request failed";
     getWorkoutTemplatesForPlans := JS.Normal [Sample.legDay] |}.

Definition noTemplates : Backend :=
  {| getWorkoutPlan := fun _ => JS.Normal (Some planRow);
     getTrainerClients := JS.Normal [ben; anna];
     getWorkoutTemplatesForPlans := JS.Throw "Network request failed" |}.

(** A state left by an earlier visit. *)
Definition stale : World :=
  {| state :=
       {| Component.plan := Some (Sample.mkPlan "2023-06-01" "2023-06-30");
          Component.client := Some (mapClient ben);
          Component.templates := [Sample.pushDay];
          Component.loading := true;
          Component.showNotesModal := false;
          Component.notes := "deload in week 3" |};
     console := [] |}.

(** A week whose Monday slot is the empty string. *)
Definition blankMonday : Schedule :=
  fun d =>
    match d with
    | Monday => Some ""
    | Tuesday => Some "t1"
    | _ => None
    end.

Definition blankPlan : WorkoutPlan :=
  {| planId := "plan-2"; clientId := "client-1"; trainerId := "trainer-1";
     planName := "Deload";
     startDate := "2024-02-01"; endDate := "soon";
     schedule := blankMonday;
     createdAt := "2024-01-20T09:00:00.000Z";
     updatedAt := "2024-01-20T09:00:00.000Z" |}.

Definition blankEnv : Env :=
  Sample.env (Some blankPlan) Sample.light Sample.jan02.

End SampleLoad.

(** Two readings of the local date-times 2024-11-01T00:00:00 and
    2024-11-07T00:00:00: by an engine whose time zone is UTC, and by one in
    New York, where daylight saving time ends between the two. *)
Module SampleEngine.

Definition utc : string -> JS.number :=
  fun s =>
    if String.eqb s "2024-11-01T00:00:00" then Some 1730419200000
    else if String.eqb s "2024-11-07T00:00:00" then Some 1730937600000
    else JS.NaN.

Definition newYork : string -> JS.number :=
  fun s =>
    if String.eqb s "2024-11-01T00:00:00" then Some 1730433600000
    else if String.eqb s "2024-11-07T00:00:00" then Some 1730955600000
    else JS.NaN.

Definition november : Env :=
  Sample.env
    (Some (Sample.mkPlan "2024-11-01T00:00:00" "2024-11-07T00:00:00"))
    Sample.light Sample.jan02.

End SampleEngine.

(** Schedule objects: one with the Monday key alone, one whose Tuesday slot
    is the empty string, and one with a key that is no weekday. *)
Module SampleObject.

Definition mondayOnly : ScheduleObject := [("Monday", Some "t1")].

Definition blankTuesday : ScheduleObject :=
  [("Monday", Some "t1"); ("Tuesday", Some ""); ("Wednesday", None)].

Definition fullWeek : ScheduleObject :=
  ofSchedule (fun d =>
    match d with
    | Saturday | Sunday => None
    | _ => Some "t1"
    end).

Definition eightKeys : ScheduleObject :=
  (ofSchedule (fun _ => Some "t1") ++ [("Holiday", Some "t3")])%list.

End SampleObject.

(** Case analysis on a month number between 0 and 11. *)
Ltac month_cases m :=
  assert (m = 0 \/ m = 1 \/ m = 2 \/ m = 3 \/ m = 4 \/ m = 5 \/ m = 6 \/
          m = 7 \/ m = 8 \/ m = 9 \/ m = 10 \/ m = 11) as Hcases by lia;
  repeat (destruct Hcases as [Hcases|Hcases]); subst m.

(** * Properties *)

(** ** Comparison of strings *)

Lemma code_unit_inj (a b : ascii) : JS.code_unit a = JS.code_unit b -> a = b.
Proof.
  unfold JS.code_unit. intro H.
  rewrite <- (ascii_N_embedding a), <- (ascii_N_embedding b).
  now rewrite H.
Qed.

Lemma str_lt_lex (x y : string) : JS.str_lt x y = true <-> JS.lex_lt x y.
Proof.
  revert y. induction x as [|a x IH]; intros [|b y]; simpl.
  - split; [discriminate | inversion 1].
  - split; [constructor | reflexivity].
  - split; [discriminate | inversion 1].
  - destruct (N.eqb_spec (JS.code_unit a) (JS.code_unit b)) as [E|E].
    + apply code_unit_inj in E. subst b. rewrite IH. split.
      * apply JS.lex_tail.
      * inversion 1; subst; [lia | assumption].
    + rewrite N.ltb_lt. split.
      * apply JS.lex_head.
      * inversion 1; subst; [assumption | congruence].
Qed.

Lemma str_lt_irrefl (x : string) : JS.str_lt x x = false.
Proof.
  induction x as [|a x IH]; simpl; [reflexivity|].
  now rewrite N.eqb_refl.
Qed.

Lemma str_lt_total (x y : string) :
  JS.str_lt x y = false -> JS.str_lt y x = false -> x = y.
Proof.
  revert y. induction x as [|a x IH]; intros [|b y]; simpl; try discriminate.
  - reflexivity.
  - rewrite (N.eqb_sym (JS.code_unit b)).
    destruct (N.eqb_spec (JS.code_unit a) (JS.code_unit b)) as [E|E].
    + apply code_unit_inj in E. subst b. intros H1 H2. f_equal. now apply IH.
    + rewrite !N.ltb_ge. lia.
Qed.

Lemma str_lt_false_le (x y : string) :
  JS.str_lt x y = false -> JS.lex_le y x.
Proof.
  intro H. destruct (JS.str_lt y x) eqn:E.
  - right. now apply str_lt_lex.
  - left. symmetry. now apply str_lt_total.
Qed.

(** ** The calendar *)
Lemma DayFromYear_step (y : Z) :
  JS.DayFromYear (y + 1) = JS.DayFromYear y + JS.DaysInYear y.
Proof.
  unfold JS.DayFromYear, JS.DaysInYear.
  repeat match goal with |- context [?a =? ?b] => destruct (Z.eqb_spec a b) end;
  simpl negb; cbv iota; Z.div_mod_to_equations; lia.
Qed.

Lemma YearFromTime_spec (t : Z) :
  JS.DayFromYear (JS.YearFromTime t) <= JS.Day t
  < JS.DayFromYear (JS.YearFromTime t + 1).
Proof.
  unfold JS.YearFromTime.
  set (d := JS.Day t). clearbody d.
  repeat match goal with |- context [?a <=? ?b] => destruct (Z.leb_spec a b) end;
  unfold JS.DayFromYear in *; Z.div_mod_to_equations; lia.
Qed.

Lemma DaysInYear_pos (y : Z) : 365 <= JS.DaysInYear y <= 366.
Proof.
  unfold JS.DaysInYear.
  repeat match goal with |- context [?a =? ?b] => destruct (Z.eqb_spec a b) end;
  simpl negb; cbv iota; lia.
Qed.

Lemma DayFromYear_mono (y y' : Z) :
  y <= y' -> JS.DayFromYear y <= JS.DayFromYear y'.
Proof.
  unfold JS.DayFromYear. intro H. Z.div_mod_to_equations. lia.
Qed.

Lemma YearFromTime_unique (t y : Z) :
  JS.DayFromYear y <= JS.Day t < JS.DayFromYear (y + 1) ->
  JS.YearFromTime t = y.
Proof.
  intros [Hlo Hhi].
  pose proof (YearFromTime_spec t) as [Slo Shi].
  destruct (Z.lt_trichotomy (JS.YearFromTime t) y) as [Hlt|[Heq|Hgt]].
  - pose proof (DayFromYear_mono (JS.YearFromTime t + 1) y). lia.
  - assumption.
  - pose proof (DayFromYear_mono (y + 1) (JS.YearFromTime t)). lia.
Qed.

Lemma YearFromTime_largest (t y : Z) :
  JS.DayFromYear y <= JS.Day t -> y <= JS.YearFromTime t.
Proof.
  intro H. pose proof (YearFromTime_spec t) as [_ Shi].
  destruct (Z.le_gt_cases y (JS.YearFromTime t)) as [Hle|Hgt]; [assumption|].
  pose proof (DayFromYear_mono (JS.YearFromTime t + 1) y). lia.
Qed.

Lemma Day_MakeDate (day : Z) : JS.Day (JS.MakeDate day 0) = day.
Proof.
  unfold JS.Day, JS.MakeDate, JS.msPerDay.
  rewrite Z.add_0_r. now apply Z.div_mul.
Qed.


Lemma MakeDay_within_year (y m d : Z) :
  valid_civil y m d ->
  JS.DayFromYear y <= JS.MakeDay y m d < JS.DayFromYear (y + 1).
Proof.
  intros [Hm Hd]. rewrite DayFromYear_step.
  unfold JS.MakeDay, JS.DaysInMonth in *.
  pose proof (DaysInYear_pos y) as Hy.
  destruct (Z.eqb_spec (JS.DaysInYear y) 366) as [E|E];
    month_cases m; simpl in *; lia.
Qed.

Lemma civil_roundtrip (y m d : Z) :
  valid_civil y m d ->
  let t := JS.MakeDate (JS.MakeDay y m d) 0 in
  JS.YearFromTime t = y /\ JS.MonthFromTime t = m /\ JS.DateFromTime t = d.
Proof.
  intros Hv t.
  assert (Hy : JS.YearFromTime t = y).
  { apply YearFromTime_unique. unfold t. rewrite Day_MakeDate.
    now apply MakeDay_within_year. }
  assert (Hm : JS.MonthFromTime t = m).
  { unfold JS.MonthFromTime, JS.DayWithinYear, JS.InLeapYear.
    rewrite Hy. unfold t. rewrite Day_MakeDate.
    destruct Hv as [Hm Hd]. unfold JS.MakeDay, JS.DaysInMonth in *.
    destruct (Z.eqb_spec (JS.DaysInYear y) 366) as [E|E];
      month_cases m; simpl in *;
      repeat match goal with
             | |- context [?a <? ?b] => destruct (Z.ltb_spec a b); try lia
             end. }
  split; [assumption|]. split; [assumption|].
  unfold JS.DateFromTime. rewrite Hm.
  unfold JS.DayWithinYear, JS.InLeapYear. rewrite Hy.
  unfold t. rewrite Day_MakeDate. unfold JS.MakeDay. lia.
Qed.

(** ** The date part of an ISO string *)

Lemma append_assoc (a b c : string) : (a ++ b) ++ c = a ++ b ++ c.
Proof.
  induction a as [|x a IH]; simpl; [reflexivity | now rewrite IH].
Qed.

Lemma free_of_append (c : ascii) (a b : string) :
  free_of c (a ++ b) = free_of c a && free_of c b.
Proof.
  induction a as [|x a IH]; simpl; [reflexivity|].
  now rewrite IH, andb_assoc.
Qed.

Lemma first_split_append (sep : ascii) (a b : string) :
  free_of sep a = true ->
  JS.first (JS.split sep (a ++ String sep b)) = a.
Proof.
  induction a as [|x a IH]; simpl.
  - now rewrite Ascii.eqb_refl.
  - intro H. apply andb_prop in H as [Hx Ha].
    apply negb_true_iff in Hx. rewrite Hx.
    specialize (IH Ha).
    destruct (JS.split sep (a ++ String sep b)) as [|hd tl]; simpl in *.
    + now subst a.
    + now subst hd.
Qed.

Lemma free_of_zeros (n : nat) : free_of "T" (JS.zeros n) = true.
Proof. induction n as [|n IH]; simpl; [reflexivity | assumption]. Qed.

Lemma free_of_uint (u : Decimal.uint) :
  free_of "T" (NilEmpty.string_of_uint u) = true.
Proof. induction u; simpl; assumption || reflexivity. Qed.

Lemma free_of_padded (w : nat) (n : Z) : free_of "T" (JS.padded w n) = true.
Proof.
  unfold JS.padded. rewrite free_of_append, free_of_zeros. simpl.
  unfold NilZero.string_of_uint.
  destruct (N.to_uint (Z.to_N n)); try apply free_of_uint; reflexivity.
Qed.

Lemma free_of_isoYear (y : Z) : free_of "T" (JS.isoYear y) = true.
Proof.
  unfold JS.isoYear.
  destruct ((0 <=? y) && (y <=? 9999)); [apply free_of_padded|].
  destruct (y <? 0); simpl; apply free_of_padded.
Qed.

Lemma free_of_utcDate (t : Z) : free_of "T" (utcDate t) = true.
Proof.
  unfold utcDate.
  rewrite !free_of_append, free_of_isoYear, !free_of_padded. reflexivity.
Qed.

Lemma isoString_utcDate (t : Z) :
  exists rest, JS.isoString t = utcDate t ++ String "T" rest.
Proof.
  unfold JS.isoString, utcDate. eexists.
  rewrite !append_assoc. simpl. reflexivity.
Qed.

(** The date the screen calls [today] is the UTC calendar date of the
    clock. *)
Lemma today_utcDate (t : Z) :
  JS.first (JS.split "T" (JS.isoString t)) = utcDate t.
Proof.
  destruct (isoString_utcDate t) as [rest ->].
  apply first_split_append, free_of_utcDate.
Qed.

(** ** Plan status *)

Lemma str_lt_asym (x y : string) :
  JS.str_lt x y = true -> JS.str_lt y x = false.
Proof.
  revert y. induction x as [|a x IH]; intros [|b y]; simpl; try discriminate.
  - reflexivity.
  - rewrite (N.eqb_sym (JS.code_unit b)).
    destruct (N.eqb_spec (JS.code_unit a) (JS.code_unit b)) as [E|E].
    + apply IH.
    + rewrite N.ltb_lt, N.ltb_ge. lia.
Qed.

Lemma lex_le_not_lt (x y : string) : JS.lex_le x y -> ~ JS.lex_lt y x.
Proof.
  intros [->|H] Hlt; apply str_lt_lex in Hlt.
  - now rewrite str_lt_irrefl in Hlt.
  - apply str_lt_lex, str_lt_asym in H. congruence.
Qed.

Lemma not_lex_lt (x y : string) : ~ JS.lex_lt x y -> JS.str_lt x y = false.
Proof.
  intro H. destruct (JS.str_lt x y) eqn:E; [|reflexivity].
  now apply str_lt_lex in E.
Qed.

(** With a plan present, [getPlanStatus] returns, and what it returns is
    decided by the two comparisons against the UTC date of the clock. *)
Lemma getPlanStatus_present (e : Env) (p : WorkoutPlan) :
  plan e = Some p ->
  getPlanStatus e =
    JS.Normal
      (if JS.str_lt (endDate p) (utcDate (now e)) then
         {| status := "Completed"; color := success (colors e) |}
       else if JS.str_lt (utcDate (now e)) (startDate p) then
         {| status := "Upcoming"; color := warning (colors e) |}
       else {| status := "Active"; color := primary (colors e) |}).
Proof.
  intro Hp. unfold getPlanStatus. rewrite Hp. simpl.
  rewrite today_utcDate. unfold JS.str_gt.
  destruct (JS.str_lt (endDate p) (utcDate (now e))); [reflexivity|].
  now destruct (JS.str_lt (utcDate (now e)) (startDate p)).
Qed.

(** C1. For a present plan, with today the ISO calendar date (UTC) of the
    clock: the status is Completed when endDate is lexicographically less
    than today; otherwise Upcoming when startDate is lexicographically
    greater than today; otherwise Active, and that last case is exactly
    startDate <= today <= endDate. *)
Theorem getPlanStatus_classifies (e : Env) (p : WorkoutPlan) :
  plan e = Some p ->
  (JS.lex_lt (endDate p) (utcDate (now e)) ->
     getPlanStatus e =
       JS.Normal {| status := "Completed"; color := success (colors e) |})
  /\ (~ JS.lex_lt (endDate p) (utcDate (now e)) ->
      JS.lex_lt (utcDate (now e)) (startDate p) ->
        getPlanStatus e =
          JS.Normal {| status := "Upcoming"; color := warning (colors e) |})
  /\ (~ JS.lex_lt (endDate p) (utcDate (now e)) ->
      ~ JS.lex_lt (utcDate (now e)) (startDate p) ->
        getPlanStatus e =
          JS.Normal {| status := "Active"; color := primary (colors e) |})
  /\ ((~ JS.lex_lt (endDate p) (utcDate (now e))
       /\ ~ JS.lex_lt (utcDate (now e)) (startDate p))
      <-> (JS.lex_le (startDate p) (utcDate (now e))
           /\ JS.lex_le (utcDate (now e)) (endDate p))).
Proof.
  intro Hp. rewrite (getPlanStatus_present e p Hp).
  repeat split.
  - intro H. apply str_lt_lex in H. now rewrite H.
  - intros H1 H2. apply not_lex_lt in H1. apply str_lt_lex in H2.
    now rewrite H1, H2.
  - intros H1 H2. apply not_lex_lt in H1, H2. now rewrite H1, H2.
  - destruct H as [_ H]. now apply str_lt_false_le, not_lex_lt.
  - destruct H as [H _]. now apply str_lt_false_le, not_lex_lt.
  - destruct H as [_ H]. now apply lex_le_not_lt.
  - destruct H as [H _]. now apply lex_le_not_lt.
Qed.

(** C5. With no plan, [getPlanStatus] returns the status "Unknown"
    normally, without throwing, whatever the clock reads. *)
Theorem getPlanStatus_absent (ts : list Template.t) (c : Colors) (clock : Z) :
  getPlanStatus {| plan := None; templates := ts; colors := c; now := clock |}
  = JS.Normal {| status := "Unknown"; color := textSecondary c |}.
Proof. reflexivity. Qed.

(** ** Duration and workouts per week *)

Lemma round_double_opp (n : Z) : JS.round_double (- n) = - JS.round_double n.
Proof.
  unfold JS.round_double. rewrite Z.abs_opp, Z.even_opp.
  destruct (Z.abs n <=? 2 ^ 53); [reflexivity|].
  destruct (Z.even n) eqn:Ev; [reflexivity|].
  assert (Hodd : n mod 2 = 1).
  { rewrite Zmod_even, Ev. reflexivity. }
  destruct (Z.eqb_spec (n mod 4) 1) as [E|E];
    destruct (Z.eqb_spec ((- n) mod 4) 1) as [E'|E'];
    Z.div_mod_to_equations; lia.
Qed.

Lemma abs_sub_swap (x y : JS.number) :
  JS.Math_abs (JS.num_sub x y) = JS.Math_abs (JS.num_sub y x).
Proof.
  destruct x as [a|], y as [b|]; simpl; try reflexivity.
  replace (b - a) with (- (a - b)) by lia.
  now rewrite round_double_opp, Z.abs_opp.
Qed.

Lemma filter_map_length {A B : Type} (f : B -> bool) (g : A -> B)
    (l : list A) :
  List.length (filter f (map g l))
  = List.length (filter (fun a => f (g a)) l).
Proof.
  induction l as [|a l IH]; simpl; [reflexivity|].
  destruct (f (g a)); simpl; now rewrite IH.
Qed.

Lemma daysOfWeek_complete (d : DayOfWeek) : In d daysOfWeek.
Proof. destruct d; simpl; tauto. Qed.

Lemma daysOfWeek_NoDup : NoDup daysOfWeek.
Proof.
  unfold daysOfWeek.
  repeat (constructor; [simpl; intuition discriminate|]). constructor.
Qed.

Lemma truthy_iff (v : option string) :
  JS.truthy v = true <-> exists s, v = Some s /\ s <> "".
Proof.
  destruct v as [[|c s]|]; simpl; split; try discriminate.
  - intros (s & [= <-] & H). now contradiction H.
  - intros _. eexists. split; [reflexivity | discriminate].
  - reflexivity.
  - intros (s & H & _). discriminate.
Qed.

Section Derived.

Variable engineParse : string -> JS.number.

(** What [getDuration] computes from the two time values, by branch.  The
    unit word of the first branch is "days" for every count. *)
Lemma getDuration_format (e : Env) (p : WorkoutPlan) (a b : Z) :
  plan e = Some p ->
  Date_parse engineParse (startDate p) = Some a ->
  Date_parse engineParse (endDate p) = Some b ->
  getDuration engineParse e =
    let diffDays := - (- Z.abs (JS.round_double (b - a)) / 86400000) in
    if diffDays <? 7 then JS.num_to_string (Some diffDays) ++ " days"
    else if diffDays <? 30 then
      JS.num_to_string (Some (diffDays / 7)) ++ " week"
        ++ (if 1 <? diffDays / 7 then "s" else "")
    else
      JS.num_to_string (Some (diffDays / 30)) ++ " month"
        ++ (if 1 <? diffDays / 30 then "s" else "").
Proof.
  intros Hp Ha Hb. unfold getDuration. rewrite Hp.
  unfold new_Date, JS.getTime. simpl JS.DateValue. rewrite Ha, Hb.
  reflexivity.
Qed.

(** From two days on the string is the one the rule of the specification
    gives; the two differ at a difference of 0 or 1 day only. *)
Lemma getDuration_matches_rule (e : Env) (p : WorkoutPlan) (a b : Z) :
  plan e = Some p ->
  Date_parse engineParse (startDate p) = Some a ->
  Date_parse engineParse (endDate p) = Some b ->
  2 <= - (- Z.abs (JS.round_double (b - a)) / 86400000) ->
  getDuration engineParse e =
    formatDuration_spec (- (- Z.abs (JS.round_double (b - a)) / 86400000)).
Proof.
  intros Hp Ha Hb Hd. rewrite (getDuration_format e p a b Hp Ha Hb).
  cbv zeta. unfold formatDuration_spec, plural.
  set (d := - (- Z.abs (JS.round_double (b - a)) / 86400000)) in *.
  destruct (d <? 7) eqn:E7.
  - replace (1 <? d) with true by (symmetry; apply Z.ltb_lt; lia).
    reflexivity.
  - destruct (d <? 30); reflexivity.
Qed.

(** C2, at a plan of one day: the code writes "1 days" where the rule
    of the specification gives the singular "1 day". *)
Theorem getDuration_one_day :
  getDuration engineParse
    (Sample.env (Some (Sample.mkPlan "2024-01-01" "2024-01-02"))
       Sample.light Sample.jan02)
  = "1 days"
  /\ formatDuration_spec 1 = "1 day".
Proof. split; reflexivity. Qed.

(** C6. The three rows of the duration table. *)
Theorem getDuration_table (e : Env) (p : WorkoutPlan) :
  plan e = Some p ->
  startDate p = "2024-01-01" ->
  (endDate p = "2024-01-03" -> getDuration engineParse e = "2 days")
  /\ (endDate p = "2024-01-15" -> getDuration engineParse e = "2 weeks")
  /\ (endDate p = "2024-04-01" -> getDuration engineParse e = "3 months").
Proof.
  intros Hp Hs.
  repeat split; intro He;
    unfold getDuration; rewrite Hp, Hs, He; reflexivity.
Qed.

(** C7. Exchanging startDate and endDate leaves the duration string
    unchanged, for every pair of date strings. *)
Theorem getDuration_symmetric (e : Env) (p : WorkoutPlan) :
  getDuration engineParse (withPlan e (Some (swapDates p)))
  = getDuration engineParse (withPlan e (Some p)).
Proof.
  unfold getDuration. simpl.
  now rewrite abs_sub_swap.
Qed.

(** C10. With no plan, [getDuration] returns the empty string and
    [getWorkoutsPerWeek] returns 0. *)
Theorem absent_plan_sentinels (ts : list Template.t) (c : Colors) (clock : Z) :
  getDuration engineParse
    {| plan := None; templates := ts; colors := c; now := clock |} = ""
  /\ getWorkoutsPerWeek
       {| plan := None; templates := ts; colors := c; now := clock |} = 0.
Proof. split; reflexivity. Qed.

End Derived.

(** C4. For a present plan, [getWorkoutsPerWeek] is the number of weekdays
    whose slot holds a value that is neither null nor falsy; on the
    schedule with Monday "t1", Wednesday "t2" and null elsewhere it is 2. *)
Theorem getWorkoutsPerWeek_counts (e : Env) (p : WorkoutPlan) :
  plan e = Some p ->
  (exists days : list DayOfWeek,
      NoDup days
      /\ (forall d, In d days <-> exists s, schedule p d = Some s /\ s <> "")
      /\ getWorkoutsPerWeek e = Z.of_nat (List.length days))
  /\ (schedule p Monday = Some "t1" ->
      schedule p Wednesday = Some "t2" ->
      (forall d, d <> Monday -> d <> Wednesday -> schedule p d = None) ->
      getWorkoutsPerWeek e = 2).
Proof.
  intro Hp. unfold getWorkoutsPerWeek. rewrite Hp. split.
  - exists (filter (fun d => JS.truthy (schedule p d)) daysOfWeek).
    split; [apply NoDup_filter, daysOfWeek_NoDup|]. split.
    + intro d. rewrite filter_In, truthy_iff.
      pose proof (daysOfWeek_complete d). tauto.
    + unfold Object_values. now rewrite filter_map_length.
  - intros Hm Hw Hrest. unfold Object_values, daysOfWeek. simpl map.
    rewrite Hm, Hw.
    rewrite !Hrest by discriminate. reflexivity.
Qed.

(** ** Template names *)

Lemma has_id_iff (tid : string) (t : Template.t) :
  has_id tid t = true <-> Template.id t = tid.
Proof. unfold has_id. simpl. apply String.eqb_eq. Qed.

Lemma getTemplateName_lookup (e : Env) (tid : string) :
  tid <> "" ->
  getTemplateName e (Some tid) =
    JS.or_else (option_map Template.name (find (has_id tid) (templates e)))
      "Unknown Template".
Proof.
  intro H. unfold getTemplateName.
  destruct tid; [now contradiction H | reflexivity].
Qed.

Lemma find_first_match {A : Type} (f : A -> bool) (l1 l2 : list A) (x : A) :
  (forall u, In u l1 -> f u = false) -> f x = true ->
  find f (l1 ++ x :: l2) = Some x.
Proof.
  intros Hl1 Hx. induction l1 as [|u l1 IH]; simpl.
  - now rewrite Hx.
  - rewrite (Hl1 u) by now left. apply IH. intros v Hv. apply Hl1. now right.
Qed.

Lemma find_absent {A : Type} (f : A -> bool) (l : list A) :
  (forall u, In u l -> f u = false) -> find f l = None.
Proof.
  intro H. induction l as [|u l IH]; simpl; [reflexivity|].
  rewrite (H u) by now left. apply IH. intros v Hv. apply H. now right.
Qed.

Lemma find_unique_id (tid : string) (l : list Template.t) (t : Template.t) :
  NoDup (map Template.id l) -> In t l -> Template.id t = tid ->
  find (has_id tid) l = Some t.
Proof.
  induction l as [|u l IH]; simpl; [contradiction|].
  intros Hnd Hin Hid. apply NoDup_cons_iff in Hnd as [Hu Hnd].
  destruct (has_id tid u) eqn:E.
  - apply has_id_iff in E. destruct Hin as [->|Hin]; [reflexivity|].
    exfalso. apply Hu. rewrite E, <- Hid. now apply in_map.
  - destruct Hin as [->|Hin].
    + apply has_id_iff in Hid. congruence.
    + now apply IH.
Qed.

Lemma find_permutation (tid : string) (l l' : list Template.t) :
  NoDup (map Template.id l) -> Permutation l l' ->
  find (has_id tid) l' = find (has_id tid) l.
Proof.
  intros Hnd Hperm.
  assert (Hnd' : NoDup (map Template.id l')).
  { eapply Permutation_NoDup; [|exact Hnd]. now apply Permutation_map. }
  destruct (find (has_id tid) l) as [t|] eqn:E.
  - apply find_some in E as [Hin Hid]. apply has_id_iff in Hid.
    apply find_unique_id; try assumption.
    eapply Permutation_in; eassumption.
  - apply find_absent. intros u Hu.
    apply (find_none _ _ E). eapply Permutation_in; [|exact Hu].
    now apply Permutation_sym.
Qed.

(** C3, amended. The name is "Rest Day" for a null or empty templateId;
    for any other templateId it is the name of the first template with
    that identifier when that name is not empty, and "Unknown Template"
    when no template has the identifier (or the name found is empty);
    with distinct identifiers the order of the list does not matter. *)
Theorem getTemplateName_resolves (e : Env) :
  getTemplateName e None = "Rest Day"
  /\ getTemplateName e (Some "") = "Rest Day"
  /\ (forall tid, tid <> "" ->
        (forall t, In t (templates e) -> Template.id t <> tid) ->
        getTemplateName e (Some tid) = "Unknown Template")
  /\ (forall tid l1 t l2, tid <> "" ->
        templates e = (l1 ++ t :: l2)%list ->
        (forall u, In u l1 -> Template.id u <> tid) ->
        Template.id t = tid ->
        getTemplateName e (Some tid) =
          if String.eqb (Template.name t) "" then "Unknown Template"
          else Template.name t)
  /\ (forall e' templateId,
        NoDup (map Template.id (templates e)) ->
        Permutation (templates e) (templates e') ->
        getTemplateName e' templateId = getTemplateName e templateId).
Proof.
  split; [reflexivity|]. split; [reflexivity|]. split; [|split].
  - intros tid Hne Hno. rewrite getTemplateName_lookup by assumption.
    rewrite find_absent; [reflexivity|].
    intros u Hu. specialize (Hno u Hu).
    destruct (has_id tid u) eqn:E; [|reflexivity].
    now apply has_id_iff in E.
  - intros tid l1 t l2 Hne Hl Hl1 Hid.
    rewrite getTemplateName_lookup by assumption. rewrite Hl.
    rewrite find_first_match.
    + simpl. now destruct (Template.name t).
    + intros u Hu. specialize (Hl1 u Hu).
      destruct (has_id tid u) eqn:E; [|reflexivity].
      now apply has_id_iff in E.
    + now apply has_id_iff.
  - intros e' [[|c tid]|] Hnd Hperm; try reflexivity.
    rewrite !getTemplateName_lookup by discriminate.
    now rewrite (find_permutation _ _ _ Hnd Hperm).
Qed.

(** C9. Every falsy templateId, the empty string as well as null or
    undefined, gives "Rest Day" without a look-up; and a template that is
    found with an empty name gives "Unknown Template". *)
Theorem getTemplateName_falsy (e : Env) :
  getTemplateName e (Some "") = "Rest Day"
  /\ getTemplateName e None = "Rest Day"
  /\ (forall tid l1 t l2, tid <> "" ->
        templates e = (l1 ++ t :: l2)%list ->
        (forall u, In u l1 -> Template.id u <> tid) ->
        Template.id t = tid ->
        Template.name t = "" ->
        getTemplateName e (Some tid) = "Unknown Template").
Proof.
  split; [reflexivity|]. split; [reflexivity|].
  intros tid l1 t l2 Hne Hl Hl1 Hid Hname.
  rewrite getTemplateName_lookup by assumption. rewrite Hl.
  rewrite find_first_match.
  - simpl. now rewrite Hname.
  - intros u Hu. specialize (Hl1 u Hu).
    destruct (has_id tid u) eqn:E; [|reflexivity].
    now apply has_id_iff in E.
  - now apply has_id_iff.
Qed.

(** ** What the derived values depend on *)

(** C8, amended. [getPlanStatus] takes no argument and reads the system
    clock itself; what it returns is determined by the plan, the UTC
    calendar date of that clock and the colour palette, and its status
    string by the plan and that date alone.  [getDuration] is determined
    by the plan and by what [new Date] makes of its two date strings:
    by the plan alone when both are calendar dates YYYY-MM-DD, and
    otherwise also by the engine that reads them, in its time zone.
    [getWorkoutsPerWeek] is determined by the plan, [getTemplateName] by
    the templateId and the template list. *)
Theorem derived_values_determined (engine1 engine2 : string -> JS.number)
    (e1 e2 : Env) :
  (plan e1 = plan e2 -> utcDate (now e1) = utcDate (now e2) ->
     exists r1 r2,
       getPlanStatus e1 = JS.Normal r1 /\ getPlanStatus e2 = JS.Normal r2
       /\ status r1 = status r2
       /\ (colors e1 = colors e2 -> r1 = r2))
  /\ (plan e1 = plan e2 ->
        (forall p, plan e1 = Some p ->
           Date_parse engine1 (startDate p) = Date_parse engine2 (startDate p)
           /\ Date_parse engine1 (endDate p) = Date_parse engine2 (endDate p))
        -> getDuration engine1 e1 = getDuration engine2 e2)
  /\ (plan e1 = plan e2 ->
        (forall p, plan e1 = Some p ->
           JS.parseISODate (startDate p) <> None
           /\ JS.parseISODate (endDate p) <> None) ->
        getDuration engine1 e1 = getDuration engine2 e2)
  /\ (plan e1 = plan e2 -> getWorkoutsPerWeek e1 = getWorkoutsPerWeek e2)
  /\ (templates e1 = templates e2 ->
        forall templateId,
          getTemplateName e1 templateId = getTemplateName e2 templateId).
Proof.
  assert (Hdur : plan e1 = plan e2 ->
            (forall p, plan e1 = Some p ->
               Date_parse engine1 (startDate p)
               = Date_parse engine2 (startDate p)
               /\ Date_parse engine1 (endDate p)
                  = Date_parse engine2 (endDate p)) ->
            getDuration engine1 e1 = getDuration engine2 e2).
  { intros Hp Hsame. unfold getDuration. rewrite <- Hp.
    destruct (plan e1) as [p|]; [|reflexivity].
    destruct (Hsame p eq_refl) as [Hs He].
    unfold new_Date, JS.getTime. simpl JS.DateValue. now rewrite Hs, He. }
  split; [|split; [|split; [|split]]].
  - intros Hp Hd. destruct (plan e1) as [p|] eqn:E1.
    + rewrite (getPlanStatus_present e1 p E1).
      rewrite (getPlanStatus_present e2 p (eq_sym Hp)).
      rewrite Hd. do 2 eexists.
      split; [reflexivity|]. split; [reflexivity|].
      destruct (JS.str_lt (endDate p) (utcDate (now e2)));
        [|destruct (JS.str_lt (utcDate (now e2)) (startDate p))];
        (split; [reflexivity | now intros ->]).
    + unfold getPlanStatus. rewrite E1, <- Hp. do 2 eexists.
      split; [reflexivity|]. split; [reflexivity|].
      split; [reflexivity | now intros ->].
  - exact Hdur.
  - intros Hp Hcal. apply Hdur; [assumption|].
    intros p Hplan. destruct (Hcal p Hplan) as [Hs He]. unfold Date_parse.
    destruct (JS.parseISODate (startDate p)); [|now contradiction Hs].
    destruct (JS.parseISODate (endDate p)); [|now contradiction He].
    split; reflexivity.
  - intro Hp. unfold getWorkoutsPerWeek. now rewrite Hp.
  - intros Ht templateId. unfold getTemplateName. now rewrite Ht.
Qed.

(** ** Instances on the sample data *)

Lemma getPlanStatus_classifies_witness :
  getPlanStatus (Sample.env Sample.threeDays Sample.light Sample.jan05)
    = JS.Normal {| status := "Completed"; color := "#10B981" |}
  /\ getPlanStatus (Sample.env Sample.threeDays Sample.light Sample.dec31)
    = JS.Normal {| status := "Upcoming"; color := "#F59E0B" |}
  /\ getPlanStatus (Sample.env Sample.threeDays Sample.light Sample.jan02)
    = JS.Normal {| status := "Active"; color := "#3B82F6" |}
  /\ JS.lex_le "2024-01-01" (utcDate Sample.jan02)
  /\ JS.lex_le (utcDate Sample.jan02) "2024-01-03".
Proof.
  split; [|split; [|split]].
  - apply (proj1 (getPlanStatus_classifies
                    (Sample.env Sample.threeDays Sample.light Sample.jan05)
                    _ eq_refl)).
    apply str_lt_lex. vm_compute. reflexivity.
  - apply (proj1 (proj2 (getPlanStatus_classifies
                    (Sample.env Sample.threeDays Sample.light Sample.dec31)
                    _ eq_refl))).
    + intro H. apply str_lt_lex in H. vm_compute in H. discriminate.
    + apply str_lt_lex. vm_compute. reflexivity.
  - apply (proj1 (proj2 (proj2 (getPlanStatus_classifies
                    (Sample.env Sample.threeDays Sample.light Sample.jan02)
                    _ eq_refl)))).
    + intro H. apply str_lt_lex in H. vm_compute in H. discriminate.
    + intro H. apply str_lt_lex in H. vm_compute in H. discriminate.
  - apply (proj2 (proj2 (proj2 (getPlanStatus_classifies
                    (Sample.env Sample.threeDays Sample.light Sample.jan02)
                    _ eq_refl)))).
    split; intro H; apply str_lt_lex in H; vm_compute in H; discriminate.
Defined.

Lemma getDuration_table_witness :
  getDuration Sample.strictEngine
    (Sample.env (Some (Sample.mkPlan "2024-01-01" "2024-01-03"))
       Sample.light Sample.jan02) = "2 days"
  /\ getDuration Sample.strictEngine
    (Sample.env (Some (Sample.mkPlan "2024-01-01" "2024-01-15"))
       Sample.light Sample.jan02) = "2 weeks"
  /\ getDuration Sample.strictEngine
    (Sample.env (Some (Sample.mkPlan "2024-01-01" "2024-04-01"))
       Sample.light Sample.jan02) = "3 months".
Proof.
  split; [|split].
  - apply (proj1 (getDuration_table Sample.strictEngine
             (Sample.env (Some (Sample.mkPlan "2024-01-01" "2024-01-03"))
                Sample.light Sample.jan02)
             (Sample.mkPlan "2024-01-01" "2024-01-03") eq_refl eq_refl)).
    reflexivity.
  - apply (proj1 (proj2 (getDuration_table Sample.strictEngine
             (Sample.env (Some (Sample.mkPlan "2024-01-01" "2024-01-15"))
                Sample.light Sample.jan02)
             (Sample.mkPlan "2024-01-01" "2024-01-15") eq_refl eq_refl))).
    reflexivity.
  - apply (proj2 (proj2 (getDuration_table Sample.strictEngine
             (Sample.env (Some (Sample.mkPlan "2024-01-01" "2024-04-01"))
                Sample.light Sample.jan02)
             (Sample.mkPlan "2024-01-01" "2024-04-01") eq_refl eq_refl))).
    reflexivity.
Defined.

Lemma getWorkoutsPerWeek_counts_witness :
  getWorkoutsPerWeek (Sample.env Sample.threeDays Sample.light Sample.jan02)
  = 2
  /\ exists days : list DayOfWeek,
       NoDup days
       /\ (forall d, In d days <->
             exists s, Sample.week d = Some s /\ s <> "")
       /\ getWorkoutsPerWeek
            (Sample.env Sample.threeDays Sample.light Sample.jan02)
          = Z.of_nat (List.length days).
Proof.
  split.
  - apply (proj2 (getWorkoutsPerWeek_counts
                    (Sample.env Sample.threeDays Sample.light Sample.jan02)
                    _ eq_refl)).
    + reflexivity.
    + reflexivity.
    + intros d Hm Hw. destruct d; simpl; congruence.
  - apply (proj1 (getWorkoutsPerWeek_counts
                    (Sample.env Sample.threeDays Sample.light Sample.jan02)
                    _ eq_refl)).
Defined.

Lemma getTemplateName_resolves_witness :
  getTemplateName (Sample.env Sample.threeDays Sample.light Sample.jan02)
    (Some "t9") = "Unknown Template"
  /\ getTemplateName (Sample.env Sample.threeDays Sample.light Sample.jan02)
    (Some "t3") = "Push Day"
  /\ getTemplateName
       {| plan := Sample.threeDays;
          templates := [Sample.pushDay; Sample.unnamed; Sample.legDay];
          colors := Sample.light; now := Sample.jan02 |}
       (Some "t1")
     = getTemplateName
         (Sample.env Sample.threeDays Sample.light Sample.jan02) (Some "t1").
Proof.
  pose proof (getTemplateName_resolves
                (Sample.env Sample.threeDays Sample.light Sample.jan02))
    as (_ & _ & Habsent & Hfound & Hperm).
  split; [|split].
  - apply Habsent; [discriminate|].
    simpl. intros t [<-|[<-|[<-|[]]]]; discriminate.
  - apply (Hfound "t3" [Sample.legDay; Sample.unnamed] Sample.pushDay []).
    + discriminate.
    + reflexivity.
    + simpl. intros u [<-|[<-|[]]]; discriminate.
    + reflexivity.
  - apply Hperm.
    + simpl. repeat (constructor; [simpl; intuition discriminate|]).
      constructor.
    + apply (Permutation_rev [Sample.legDay; Sample.unnamed; Sample.pushDay]).
Defined.

Lemma getTemplateName_falsy_witness :
  getTemplateName (Sample.env Sample.threeDays Sample.light Sample.jan02)
    (Some "t2") = "Unknown Template".
Proof.
  apply (proj2 (proj2 (getTemplateName_falsy
           (Sample.env Sample.threeDays Sample.light Sample.jan02)))
         "t2" [Sample.legDay] Sample.unnamed [Sample.pushDay]).
  - discriminate.
  - reflexivity.
  - simpl. intros u [<-|[]]. discriminate.
  - reflexivity.
  - reflexivity.
Defined.

Lemma derived_values_determined_witness :
  (exists r1 r2,
      getPlanStatus (Sample.env Sample.threeDays Sample.light Sample.jan02)
        = JS.Normal r1
      /\ getPlanStatus
           (Sample.env Sample.threeDays Sample.dark (Sample.jan02 + 3600000))
         = JS.Normal r2
      /\ status r1 = status r2)
  /\ getPlanStatus (Sample.env Sample.threeDays Sample.light Sample.jan02)
     = getPlanStatus
         (Sample.env Sample.threeDays Sample.light (Sample.jan02 + 3600000))
  /\ getDuration Sample.strictEngine
       (Sample.env Sample.threeDays Sample.light Sample.jan02)
     = getDuration Sample.strictEngine
         (Sample.env Sample.threeDays Sample.dark Sample.jan05)
  /\ getDuration SampleEngine.utc
       (Sample.env Sample.threeDays Sample.light Sample.jan02)
     = getDuration SampleEngine.newYork
         (Sample.env Sample.threeDays Sample.dark Sample.jan05)
  /\ getWorkoutsPerWeek
       (Sample.env Sample.threeDays Sample.light Sample.jan02)
     = getWorkoutsPerWeek
         (Sample.env Sample.threeDays Sample.dark Sample.jan05)
  /\ getTemplateName (Sample.env Sample.threeDays Sample.light Sample.jan02)
       (Some "t1")
     = getTemplateName (Sample.env None Sample.dark Sample.jan05) (Some "t1").
Proof.
  split; [|split; [|split; [|split; [|split]]]].
  - destruct (proj1 (derived_values_determined Sample.strictEngine
               Sample.strictEngine
               (Sample.env Sample.threeDays Sample.light Sample.jan02)
               (Sample.env Sample.threeDays Sample.dark
                  (Sample.jan02 + 3600000)))
               eq_refl ltac:(vm_compute; reflexivity))
      as (r1 & r2 & H1 & H2 & Hs & _).
    exists r1, r2. repeat split; assumption.
  - destruct (proj1 (derived_values_determined Sample.strictEngine
               Sample.strictEngine
               (Sample.env Sample.threeDays Sample.light Sample.jan02)
               (Sample.env Sample.threeDays Sample.light
                  (Sample.jan02 + 3600000)))
               eq_refl ltac:(vm_compute; reflexivity))
      as (r1 & r2 & H1 & H2 & _ & Hc).
    rewrite H1, H2. f_equal. apply Hc. reflexivity.
  - apply (proj1 (proj2 (derived_values_determined Sample.strictEngine
               Sample.strictEngine
               (Sample.env Sample.threeDays Sample.light Sample.jan02)
               (Sample.env Sample.threeDays Sample.dark Sample.jan05)))
             eq_refl).
    intros p Hp. split; reflexivity.
  - apply (proj1 (proj2 (proj2 (derived_values_determined SampleEngine.utc
               SampleEngine.newYork
               (Sample.env Sample.threeDays Sample.light Sample.jan02)
               (Sample.env Sample.threeDays Sample.dark Sample.jan05))))
             eq_refl).
    intros p Hp. injection Hp as <-. split; vm_compute; discriminate.
  - apply (proj1 (proj2 (proj2 (proj2 (derived_values_determined
               Sample.strictEngine Sample.strictEngine
               (Sample.env Sample.threeDays Sample.light Sample.jan02)
               (Sample.env Sample.threeDays Sample.dark Sample.jan05)))))
             eq_refl).
  - apply (proj2 (proj2 (proj2 (proj2 (derived_values_determined
               Sample.strictEngine Sample.strictEngine
               (Sample.env Sample.threeDays Sample.light Sample.jan02)
               (Sample.env None Sample.dark Sample.jan05)))))
             eq_refl).
Defined.

(** ** Where the specification and the code part *)

(** C3, as the specification words it, fails on the empty identifier and on
    a template whose name is empty: the code answers "Rest Day" and
    "Unknown Template", the specification "Unknown Template" and the empty
    name. *)
Lemma getTemplateName_spec_counterexample :
  getTemplateName (Sample.env Sample.threeDays Sample.light Sample.jan02)
    (Some "")
  <> resolveName_spec (Some "")
       (templates (Sample.env Sample.threeDays Sample.light Sample.jan02))
  /\ getTemplateName (Sample.env Sample.threeDays Sample.light Sample.jan02)
       (Some "t2")
     <> resolveName_spec (Some "t2")
          (templates (Sample.env Sample.threeDays Sample.light Sample.jan02)).
Proof. split; vm_compute; discriminate. Qed.

(** C8, as the specification words it, fails: two calls of [getPlanStatus]
    on the same plan, templates and palette differ when only the system
    clock has moved on, and two calls at the same instant on the same plan
    differ when only the palette has changed; and [getDuration] on one and
    the same plan, whose dates are local date-times, differs with the time
    zone in which the engine reads them. *)
Lemma getPlanStatus_ambient_counterexample :
  (plan (Sample.env Sample.threeDays Sample.light Sample.jan02)
     = plan (Sample.env Sample.threeDays Sample.light Sample.jan05)
   /\ templates (Sample.env Sample.threeDays Sample.light Sample.jan02)
      = templates (Sample.env Sample.threeDays Sample.light Sample.jan05)
   /\ colors (Sample.env Sample.threeDays Sample.light Sample.jan02)
      = colors (Sample.env Sample.threeDays Sample.light Sample.jan05)
   /\ getPlanStatus (Sample.env Sample.threeDays Sample.light Sample.jan02)
      <> getPlanStatus (Sample.env Sample.threeDays Sample.light Sample.jan05))
  /\ (plan (Sample.env Sample.threeDays Sample.light Sample.jan02)
        = plan (Sample.env Sample.threeDays Sample.dark Sample.jan02)
      /\ now (Sample.env Sample.threeDays Sample.light Sample.jan02)
         = now (Sample.env Sample.threeDays Sample.dark Sample.jan02)
      /\ getPlanStatus (Sample.env Sample.threeDays Sample.light Sample.jan02)
         <> getPlanStatus
              (Sample.env Sample.threeDays Sample.dark Sample.jan02))
  /\ (getDuration SampleEngine.utc SampleEngine.november = "6 days"
      /\ getDuration SampleEngine.newYork SampleEngine.november = "1 week").
Proof.
  repeat split; try reflexivity; vm_compute; discriminate.
Qed.

(** * Further properties of the screen *)

(** ** Loading *)

(** However the three calls end, [loadPlanDetails] itself returns normally
    and leaves the loading flag cleared; the notes and the modal flag are
    untouched. *)
Theorem loadPlanDetails_settles (b : Backend) (id : string) (w : World) :
  fst (loadPlanDetails b id w) = JS.Normal tt
  /\ Component.loading (state (snd (loadPlanDetails b id w))) = false
  /\ Component.notes (state (snd (loadPlanDetails b id w)))
     = Component.notes (state w)
  /\ Component.showNotesModal (state (snd (loadPlanDetails b id w)))
     = Component.showNotesModal (state w).
Proof.
  unfold loadPlanDetails, tryCatchFinally, andThen, await.
  destruct (getWorkoutPlan b id) as [[row|]|err]; simpl;
    try (repeat split; reflexivity).
  destruct (getTrainerClients b) as [clients|err]; simpl;
    try (repeat split; reflexivity).
  destruct (getWorkoutTemplatesForPlans b) as [ts|err]; simpl;
    repeat split; reflexivity.
Qed.

(** When the plan is not delivered (the call gives null, or it rejects),
    the plan, the client and the templates stay as they were; a rejection
    is written to the console, a null is not. *)
Theorem loadPlanDetails_without_plan (b : Backend) (id : string) (w : World) :
  (forall row, getWorkoutPlan b id <> JS.Normal (Some row)) ->
  Component.plan (state (snd (loadPlanDetails b id w)))
    = Component.plan (state w)
  /\ Component.client (state (snd (loadPlanDetails b id w)))
     = Component.client (state w)
  /\ Component.templates (state (snd (loadPlanDetails b id w)))
     = Component.templates (state w)
  /\ console (snd (loadPlanDetails b id w))
     = match getWorkoutPlan b id with
       | JS.Throw err => (console w ++ [LogError err])%list
       | JS.Normal _ => console w
       end.
Proof.
  intro Hno. unfold loadPlanDetails, tryCatchFinally, andThen, await.
  destruct (getWorkoutPlan b id) as [[row|]|err]; simpl.
  - now contradiction (Hno row).
  - repeat split; reflexivity.
  - repeat split; reflexivity.
Qed.

(** The plan is stored as soon as it is delivered: when a later call
    rejects, the new plan is kept beside whatever client and templates
    were there before the failing call, and the rejection is logged. *)
Theorem loadPlanDetails_partial (b : Backend) (id : string) (w : World)
    (row : PlanRow.t) :
  getWorkoutPlan b id = JS.Normal (Some row) ->
  (forall err, getTrainerClients b = JS.Throw err ->
     Component.plan (state (snd (loadPlanDetails b id w)))
       = Some (mapPlan row)
     /\ Component.client (state (snd (loadPlanDetails b id w)))
        = Component.client (state w)
     /\ Component.templates (state (snd (loadPlanDetails b id w)))
        = Component.templates (state w)
     /\ console (snd (loadPlanDetails b id w))
        = (console w ++ [LogError err])%list)
  /\ (forall clients err,
        getTrainerClients b = JS.Normal clients ->
        getWorkoutTemplatesForPlans b = JS.Throw err ->
        Component.plan (state (snd (loadPlanDetails b id w)))
          = Some (mapPlan row)
        /\ Component.templates (state (snd (loadPlanDetails b id w)))
           = Component.templates (state w)
        /\ console (snd (loadPlanDetails b id w))
           = (console w ++ [LogError err])%list).
Proof.
  intro Hrow. unfold loadPlanDetails, tryCatchFinally, andThen, await.
  rewrite Hrow. split.
  - intros err Hc. rewrite Hc. simpl. repeat split; reflexivity.
  - intros clients err Hc Ht. rewrite Hc. simpl. rewrite Ht. simpl.
    repeat split; reflexivity.
Qed.

(** After a load in which all three calls deliver, the plan carries the
    dates and the schedule of the row, the templates are the fetched ones,
    and the client is the first client row with the plan's client
    identifier, none when no row carries it. *)
Theorem loadPlanDetails_success (b : Backend) (id : string) (w : World)
    (row : PlanRow.t) (clients : list ClientRow.t) (ts : list Template.t) :
  getWorkoutPlan b id = JS.Normal (Some row) ->
  getTrainerClients b = JS.Normal clients ->
  getWorkoutTemplatesForPlans b = JS.Normal ts ->
  Component.plan (state (snd (loadPlanDetails b id w))) = Some (mapPlan row)
  /\ Component.templates (state (snd (loadPlanDetails b id w))) = ts
  /\ ((forall c, In c clients -> ClientRow.id c <> PlanRow.client_id row) ->
      Component.client (state (snd (loadPlanDetails b id w))) = None)
  /\ (forall l1 c l2,
        clients = (l1 ++ c :: l2)%list ->
        (forall u, In u l1 -> ClientRow.id u <> PlanRow.client_id row) ->
        ClientRow.id c = PlanRow.client_id row ->
        Component.client (state (snd (loadPlanDetails b id w)))
          = Some (mapClient c)).
Proof.
  intros Hrow Hc Ht. unfold loadPlanDetails, tryCatchFinally, andThen, await.
  rewrite Hrow, Hc. simpl. rewrite Ht. simpl.
  split; [reflexivity|]. split; [reflexivity|]. split.
  - intro Hnone. rewrite find_absent; [reflexivity|].
    intros u Hu. apply String.eqb_neq. now apply Hnone.
  - intros l1 c l2 -> Hl1 Hid. rewrite find_first_match; [reflexivity| |].
    + intros u Hu. apply String.eqb_neq. now apply Hl1.
    + now apply String.eqb_eq.
Qed.

(** Started on the first render, the load never leaves a client that
    belongs to another plan: a client held next to a plan has the plan's
    client identifier. *)
Theorem loadPlanDetails_client_of_plan (b : Backend) (id : string)
    (p : WorkoutPlan) (c : Client.t) :
  Component.plan (state (snd (loadPlanDetails b id freshWorld))) = Some p ->
  Component.client (state (snd (loadPlanDetails b id freshWorld))) = Some c ->
  Client.id c = clientId p.
Proof.
  unfold loadPlanDetails, tryCatchFinally, andThen, await.
  destruct (getWorkoutPlan b id) as [[row|]|err]; simpl; try discriminate.
  destruct (getTrainerClients b) as [clients|err]; simpl; try discriminate.
  assert (Hc : forall c0,
             option_map mapClient
               (find (fun c1 => String.eqb (ClientRow.id c1)
                                  (PlanRow.client_id row)) clients) = Some c0 ->
             Client.id c0 = PlanRow.client_id row).
  { intros c0 H.
    destruct (find _ clients) as [cr|] eqn:E; [|discriminate].
    injection H as <-. apply find_some in E as [_ E].
    now apply String.eqb_eq in E. }
  destruct (getWorkoutTemplatesForPlans b) as [ts|err]; simpl;
    intros [= <-] H; now apply Hc.
Qed.

(** Which view follows the first load: the details as soon as the plan is
    delivered, whatever happens to the later calls, and "Plan Not Found"
    otherwise; never the loading view. *)
Theorem first_load_view (b : Backend) (id : string) :
  (renderBranch (state (snd (loadPlanDetails b id freshWorld))) = DetailsView
   <-> exists row, getWorkoutPlan b id = JS.Normal (Some row))
  /\ (renderBranch (state (snd (loadPlanDetails b id freshWorld)))
      = NotFoundView
      <-> forall row, getWorkoutPlan b id <> JS.Normal (Some row)).
Proof.
  unfold loadPlanDetails, tryCatchFinally, andThen, await, renderBranch.
  destruct (getWorkoutPlan b id) as [[row|]|err]; simpl.
  - destruct (getTrainerClients b) as [clients|err]; simpl;
      [destruct (getWorkoutTemplatesForPlans b) as [ts|err]; simpl|];
      (split; split; intro H;
       [ now exists row | reflexivity | discriminate
       | now contradiction (H row) ]).
  - split; split; intro H; try discriminate; try reflexivity.
    + destruct H as [row H]. discriminate.
  - split; split; intro H; try discriminate; try reflexivity.
    + destruct H as [row H]. discriminate.
Qed.

(** When the plan is delivered but the clients or the templates are not,
    the first load shows the plan with the client line "Unknown Client"
    (clients failed) and, in both cases, with every non-empty slot of the
    schedule named "Unknown Template". *)
Theorem first_load_degraded (b : Backend) (id : string) (row : PlanRow.t)
    (c : Colors) (clock : Z) :
  getWorkoutPlan b id = JS.Normal (Some row) ->
  (forall ts, getTrainerClients b = JS.Normal ts ->
     forall l, getWorkoutTemplatesForPlans b <> JS.Normal l) ->
  (forall tid, tid <> "" ->
     getTemplateName
       (envOf (state (snd (loadPlanDetails b id freshWorld))) c clock)
       (Some tid) = "Unknown Template")
  /\ ((forall ts, getTrainerClients b <> JS.Normal ts) ->
      clientLabel (state (snd (loadPlanDetails b id freshWorld)))
      = "Unknown Client").
Proof.
  intros Hrow Hfail.
  assert (Hts : Component.templates
                  (state (snd (loadPlanDetails b id freshWorld))) = []).
  { destruct (getTrainerClients b) as [clients|err] eqn:Ec.
    - destruct (getWorkoutTemplatesForPlans b) as [ts|err] eqn:Et.
      + now contradiction (Hfail clients eq_refl ts).
      + now destruct (proj2 (loadPlanDetails_partial b id freshWorld row Hrow)
                        clients err Ec Et) as (_ & -> & _).
    - now destruct (proj1 (loadPlanDetails_partial b id freshWorld row Hrow)
                      err Ec) as (_ & _ & -> & _). }
  split.
  - intros tid Hne.
    rewrite getTemplateName_lookup by assumption.
    unfold envOf. simpl templates. rewrite Hts. reflexivity.
  - intro Hno. destruct (getTrainerClients b) as [clients|err] eqn:Ec.
    + now contradiction (Hno clients).
    + unfold clientLabel.
      now destruct (proj1 (loadPlanDetails_partial b id freshWorld row Hrow)
                      err Ec) as (_ & -> & _).
Qed.

(** ** Starting a workout and the rows of the weekly schedule *)

(** [handleStartWorkout] pushes one route, /start-workout/ followed by the
    identifier, exactly when a plan is there and the slot of the day holds
    a non-empty identifier; otherwise it does nothing. *)
Theorem handleStartWorkout_navigates (e : Env) (day : DayOfWeek) :
  (forall p tid, plan e = Some p -> schedule p day = Some tid -> tid <> "" ->
     handleStartWorkout e day = [Push ("/start-workout/" ++ tid)])
  /\ (handleStartWorkout e day <> [] ->
      exists p tid,
        plan e = Some p /\ schedule p day = Some tid /\ tid <> "").
Proof.
  unfold handleStartWorkout. split.
  - intros p tid -> -> Hne. destruct tid; [now contradiction Hne | reflexivity].
  - destruct (plan e) as [p|]; [|now intros []].
    destruct (schedule p day) as [[|a tid]|] eqn:E; try (now intros []).
    intros _. exists p, (String a tid). repeat split; [assumption|discriminate].
Qed.

(** ** Starting a workout and the rows of the weekly schedule, on the
    object *)

Lemma dayLabel_inj (d d' : DayOfWeek) : dayLabel d = dayLabel d' -> d = d'.
Proof. destruct d, d'; simpl; intro H; try reflexivity; discriminate. Qed.

Lemma readKey_absent (o : ScheduleObject) (key : string) :
  ~ In key (map fst o) -> readKey o key = Undefined.
Proof.
  induction o as [|[k v] o IH]; simpl; [reflexivity|].
  intro H. destruct (String.eqb_spec k key) as [->|_]; [tauto|].
  apply IH. tauto.
Qed.

Lemma readKey_ofSchedule (s : Schedule) (d : DayOfWeek) :
  readKey (ofSchedule s) (dayLabel d) = Held (s d).
Proof. destruct d; reflexivity. Qed.

(** On the object of a typed schedule the closures are the ones that
    read the typed schedule. *)
Lemma Raw_on_typed_schedule (e : Env) (day : DayOfWeek) :
  Raw.getWorkoutsPerWeek
    (option_map (fun p => ofSchedule (schedule p)) (plan e))
  = getWorkoutsPerWeek e
  /\ Raw.handleStartWorkout
       (option_map (fun p => ofSchedule (schedule p)) (plan e)) day
     = handleStartWorkout e day.
Proof.
  unfold getWorkoutsPerWeek, handleStartWorkout, Raw.getWorkoutsPerWeek,
    Raw.handleStartWorkout.
  destruct (plan e) as [p|]; simpl option_map; cbv iota; [|split; reflexivity].
  split.
  - reflexivity.
  - rewrite readKey_ofSchedule. reflexivity.
Qed.

Lemma Raw_scheduleRows_row (e : Env) (o : ScheduleObject) (r : Row) :
  In r (Raw.scheduleRows e o) -> r = Raw.scheduleRow e o (dayName r).
Proof.
  unfold Raw.scheduleRows. intro Hin.
  apply in_map_iff in Hin as (d & <- & _). reflexivity.
Qed.

(** The weekly schedule has one row for each weekday, in the order of
    [daysOfWeek], whatever keys the object has.  A row takes the rest-day
    style exactly when its slot is null, and it has the Start button in
    every other case.  The Start button is there but pressing it does
    nothing exactly when the slot is the empty string or the weekday key is
    missing; such a row is named "Rest Day" and is not styled as a rest
    day. *)
Theorem Raw_rows_start_button (e : Env) (o : ScheduleObject) :
  map dayName (Raw.scheduleRows e o) = daysOfWeek
  /\ forall r, In r (Raw.scheduleRows e o) ->
       restDay r = negb (startButton r)
       /\ (restDay r = true <-> readKey o (dayLabel (dayName r)) = Held None)
       /\ (restDay r = true -> workoutName r = "Rest Day")
       /\ (startButton r = true
           /\ Raw.handleStartWorkout (Some o) (dayName r) = []
           <-> readKey o (dayLabel (dayName r)) = Undefined
               \/ readKey o (dayLabel (dayName r)) = Held (Some ""))
       /\ (readKey o (dayLabel (dayName r)) = Undefined
           \/ readKey o (dayLabel (dayName r)) = Held (Some "") ->
           workoutName r = "Rest Day" /\ restDay r = false).
Proof.
  split; [reflexivity|].
  intros r Hin. rewrite (Raw_scheduleRows_row e o r Hin).
  unfold Raw.scheduleRow, Raw.handleStartWorkout. simpl.
  destruct (readKey o (dayLabel (dayName r))) as [|[[|a tid]|]]; simpl;
    intuition congruence.
Qed.

Lemma filter_length_le_iff {A : Type} (f g : A -> bool) (l : list A) :
  (forall x, f x = true -> g x = true) ->
  (List.length (filter f l) <= List.length (filter g l))%nat
  /\ (List.length (filter f l) = List.length (filter g l)
      <-> forall x, In x l -> g x = true -> f x = true).
Proof.
  intro Hfg. induction l as [|a l [IHle IHeq]]; simpl.
  - split; [lia|]. split; [intros _ x [] | reflexivity].
  - specialize (Hfg a).
    destruct (f a) eqn:Ef, (g a) eqn:Eg; simpl.
    + split; [lia|]. split.
      * intros H x [<-|Hx] Hg; [assumption|]. apply IHeq; [lia | assumption..].
      * intro H. f_equal. apply IHeq. intros x Hx. apply H. now right.
    + specialize (Hfg eq_refl). discriminate.
    + split; [lia|]. split.
      * intro H. lia.
      * intro H. specialize (H a (or_introl eq_refl) Eg). congruence.
    + split; [lia|]. split.
      * intros H x [<-|Hx] Hg; [congruence|]. now apply IHeq.
      * intro H. apply IHeq. intros x Hx. apply H. now right.
Qed.

(** When the keys are distinct weekday names, counting the truthy values
    of the object is counting the weekdays whose slot is truthy. *)
Lemma values_by_weekday (o : ScheduleObject) :
  weekdayKeys o ->
  List.length (filter JS.truthy (Raw.Object_values o))
  = List.length
      (filter (fun d => slot_truthy (readKey o (dayLabel d))) daysOfWeek).
Proof.
  unfold Raw.Object_values.
  induction o as [|[k v] o IH]; intros [Hnd Hkeys].
  - reflexivity.
  - simpl in Hnd. apply NoDup_cons_iff in Hnd as [Hk Hnd].
    destruct (Hkeys k (or_introl eq_refl)) as [d0 ->].
    assert (IH' := IH (conj Hnd (fun k' Hk' => Hkeys k' (or_intror Hk')))).
    pose proof (readKey_absent o _ Hk) as Habs.
    unfold daysOfWeek in *.
    destruct d0; simpl in *; rewrite Habs in IH'; simpl in IH';
      set (b1 := slot_truthy (readKey o "Monday")) in *;
      set (b2 := slot_truthy (readKey o "Tuesday")) in *;
      set (b3 := slot_truthy (readKey o "Wednesday")) in *;
      set (b4 := slot_truthy (readKey o "Thursday")) in *;
      set (b5 := slot_truthy (readKey o "Friday")) in *;
      set (b6 := slot_truthy (readKey o "Saturday")) in *;
      set (b7 := slot_truthy (readKey o "Sunday")) in *;
      clearbody b1 b2 b3 b4 b5 b6 b7;
      destruct (JS.truthy v), b1, b2, b3, b4, b5, b6, b7;
      simpl in *; lia.
Qed.

(** On an object whose keys are distinct weekday names, the number shown
    as workouts per week never exceeds the number of rows with a Start
    button, and the two agree exactly when no weekday key is missing and
    no slot is the empty string. *)
Theorem Raw_workouts_vs_start_buttons (e : Env) (o : ScheduleObject) :
  weekdayKeys o ->
  Raw.getWorkoutsPerWeek (Some o)
    <= Z.of_nat (List.length (filter startButton (Raw.scheduleRows e o)))
  /\ (Raw.getWorkoutsPerWeek (Some o)
        = Z.of_nat (List.length (filter startButton (Raw.scheduleRows e o)))
      <-> forall d, readKey o (dayLabel d) <> Undefined
                    /\ readKey o (dayLabel d) <> Held (Some "")).
Proof.
  intro Hkeys. unfold Raw.getWorkoutsPerWeek, Raw.scheduleRows.
  rewrite (values_by_weekday o Hkeys), filter_map_length.
  unfold Raw.scheduleRow. simpl startButton.
  destruct (filter_length_le_iff
              (fun d => slot_truthy (readKey o (dayLabel d)))
              (fun d => slot_not_null (readKey o (dayLabel d))) daysOfWeek)
    as [Hle Heq].
  { intros d. now destruct (readKey o (dayLabel d)) as [|[[|a s]|]]. }
  split; [lia|]. rewrite Nat2Z.inj_iff, Heq. split.
  - intros H d. specialize (H d (daysOfWeek_complete d)).
    destruct (readKey o (dayLabel d)) as [|[[|a s]|]]; simpl in H;
      split; try discriminate; specialize (H eq_refl); discriminate.
  - intros H d _. destruct (H d) as [H1 H2].
    destruct (readKey o (dayLabel d)) as [|[[|a s]|]]; simpl;
      congruence.
Qed.

(** The workouts per week are never negative and at most the number of
    keys of the schedule object; they are at most 7 when the keys are
    distinct weekday names. *)
Theorem Raw_getWorkoutsPerWeek_bounds (o : ScheduleObject) :
  0 <= Raw.getWorkoutsPerWeek (Some o) <= Z.of_nat (List.length o)
  /\ (weekdayKeys o -> Raw.getWorkoutsPerWeek (Some o) <= 7).
Proof.
  unfold Raw.getWorkoutsPerWeek. split.
  - pose proof (filter_length_le JS.truthy (Raw.Object_values o)) as H.
    unfold Raw.Object_values in *. rewrite length_map in H. lia.
  - intro Hkeys. rewrite (values_by_weekday o Hkeys).
    pose proof (filter_length_le
                  (fun d => slot_truthy (readKey o (dayLabel d))) daysOfWeek)
      as H.
    change (List.length daysOfWeek) with 7%nat in H. lia.
Qed.

Lemma ofSchedule_weekdayKeys (s : Schedule) : weekdayKeys (ofSchedule s).
Proof.
  split.
  - simpl. repeat (constructor; [simpl; intuition discriminate|]). constructor.
  - intros k Hk. unfold ofSchedule in Hk. rewrite map_map in Hk.
    apply in_map_iff in Hk as (d & <- & _). now exists d.
Qed.

(** An object with a key that is no weekday can show more than seven
    workouts per week. *)
Lemma Raw_getWorkoutsPerWeek_eighth_key :
  NoDup (map fst SampleObject.eightKeys)
  /\ Raw.getWorkoutsPerWeek (Some SampleObject.eightKeys) = 8.
Proof.
  split; [|reflexivity].
  simpl. repeat (constructor; [simpl; intuition discriminate|]). constructor.
Qed.

(** ** More on the derived values *)

(** [getPlanStatus] never throws; its status is one of "Unknown",
    "Completed", "Upcoming" and "Active", and it is "Unknown" exactly when
    there is no plan. *)
Theorem getPlanStatus_total (e : Env) :
  exists r, getPlanStatus e = JS.Normal r
    /\ (status r = "Unknown" \/ status r = "Completed"
        \/ status r = "Upcoming" \/ status r = "Active")
    /\ (status r = "Unknown" <-> plan e = None).
Proof.
  destruct (plan e) as [p|] eqn:Hp.
  - rewrite (getPlanStatus_present e p Hp). eexists. split; [reflexivity|].
    destruct (JS.str_lt (endDate p) (utcDate (now e)));
      [|destruct (JS.str_lt (utcDate (now e)) (startDate p))]; simpl;
      (split; [tauto | split; discriminate]).
  - unfold getPlanStatus. rewrite Hp. eexists. split; [reflexivity|].
    simpl. tauto.
Qed.

(** ** Calendar dates, as strings and as time values *)

Lemma digit_spec (c : ascii) (x : Z) :
  JS.digit c = Some x -> 0 <= x <= 9 /\ c = chr x.
Proof.
  unfold JS.digit, JS.code_unit, chr.
  destruct (N.leb_spec 48 (N_of_ascii c)); simpl; [|discriminate].
  destruct (N.leb_spec (N_of_ascii c) 57); [|discriminate].
  intros [= <-]. split; [lia|].
  replace (Z.to_N (Z.of_N (N_of_ascii c) - 48 + 48)) with (N_of_ascii c)
    by lia.
  symmetry. apply ascii_N_embedding.
Qed.

Lemma code_unit_chr (x : Z) :
  0 <= x <= 9 -> JS.code_unit (chr x) = Z.to_N (x + 48).
Proof.
  intro H. unfold JS.code_unit, chr. apply N_ascii_embedding. lia.
Qed.

Lemma digit_chr (x : Z) : 0 <= x <= 9 -> JS.digit (chr x) = Some x.
Proof.
  intro H. unfold JS.digit. rewrite code_unit_chr by assumption.
  destruct (N.leb_spec 48 (Z.to_N (x + 48))); [|lia].
  destruct (N.leb_spec (Z.to_N (x + 48)) 57); [|lia].
  simpl. f_equal. lia.
Qed.

(** A string that parses as a calendar date is YYYY-MM-DD for eight
    digits naming a day that exists, and its time value is the midnight
    that begins that day. *)
Lemma parseISODate_inv (s : string) (t : Z) :
  JS.parseISODate s = Some t ->
  exists y1 y2 y3 y4 m1 m2 d1 d2,
    (0 <= y1 <= 9 /\ 0 <= y2 <= 9 /\ 0 <= y3 <= 9 /\ 0 <= y4 <= 9)
    /\ (0 <= m1 <= 9 /\ 0 <= m2 <= 9 /\ 0 <= d1 <= 9 /\ 0 <= d2 <= 9)
    /\ s = dateChars y1 y2 y3 y4 m1 m2 d1 d2
    /\ valid_civil (1000 * y1 + 100 * y2 + 10 * y3 + y4)
         (10 * m1 + m2 - 1) (10 * d1 + d2)
    /\ t = JS.MakeDate
             (JS.MakeDay (1000 * y1 + 100 * y2 + 10 * y3 + y4)
                (10 * m1 + m2 - 1) (10 * d1 + d2)) 0.
Proof.
  unfold JS.parseISODate.
  destruct s as [|c1 [|c2 [|c3 [|c4 [|s1 [|c5 [|c6 [|s2 [|c7 [|c8 [|]]]]]]]]]]];
    try discriminate.
  destruct (Ascii.eqb_spec s1 "-"); [|discriminate].
  destruct (Ascii.eqb_spec s2 "-"); [|discriminate]. subst s1 s2. simpl andb.
  unfold JS.digits4, JS.digits2.
  destruct (JS.digit c1) as [y1|] eqn:E1; [|discriminate].
  destruct (JS.digit c2) as [y2|] eqn:E2; [|discriminate].
  destruct (JS.digit c3) as [y3|] eqn:E3; [|discriminate].
  destruct (JS.digit c4) as [y4|] eqn:E4; [|discriminate].
  destruct (JS.digit c5) as [m1|] eqn:E5; [|discriminate].
  destruct (JS.digit c6) as [m2|] eqn:E6; [|discriminate].
  destruct (JS.digit c7) as [d1|] eqn:E7; [|discriminate].
  destruct (JS.digit c8) as [d2|] eqn:E8; [|discriminate].
  apply digit_spec in E1 as [? ->], E2 as [? ->], E3 as [? ->], E4 as [? ->].
  apply digit_spec in E5 as [? ->], E6 as [? ->], E7 as [? ->], E8 as [? ->].
  replace (100 * (10 * y1 + y2) + (10 * y3 + y4))
    with (1000 * y1 + 100 * y2 + 10 * y3 + y4) by lia.
  destruct (Z.leb_spec 1 (10 * m1 + m2)); [|discriminate].
  destruct (Z.leb_spec (10 * m1 + m2) 12); [|discriminate].
  destruct (Z.leb_spec 1 (10 * d1 + d2)); [|discriminate].
  destruct (Z.leb_spec (10 * d1 + d2)
              (JS.DaysInMonth (1000 * y1 + 100 * y2 + 10 * y3 + y4)
                 (10 * m1 + m2 - 1))); [|discriminate].
  cbn [andb]. intros [= <-].
  exists y1, y2, y3, y4, m1, m2, d1, d2. unfold valid_civil.
  repeat split; try lia; reflexivity.
Qed.

Lemma parseISODate_dateChars (y1 y2 y3 y4 m1 m2 d1 d2 : Z) :
  (0 <= y1 <= 9 /\ 0 <= y2 <= 9 /\ 0 <= y3 <= 9 /\ 0 <= y4 <= 9) ->
  (0 <= m1 <= 9 /\ 0 <= m2 <= 9 /\ 0 <= d1 <= 9 /\ 0 <= d2 <= 9) ->
  valid_civil (1000 * y1 + 100 * y2 + 10 * y3 + y4)
    (10 * m1 + m2 - 1) (10 * d1 + d2) ->
  JS.parseISODate (dateChars y1 y2 y3 y4 m1 m2 d1 d2)
  = Some (JS.MakeDate
            (JS.MakeDay (1000 * y1 + 100 * y2 + 10 * y3 + y4)
               (10 * m1 + m2 - 1) (10 * d1 + d2)) 0).
Proof.
  intros (?&?&?&?) (?&?&?&?) [Hm Hd].
  unfold JS.parseISODate, dateChars. simpl andb. cbv iota.
  unfold JS.digits4, JS.digits2. rewrite !digit_chr by assumption.
  replace (100 * (10 * y1 + y2) + (10 * y3 + y4))
    with (1000 * y1 + 100 * y2 + 10 * y3 + y4) by lia.
  destruct (Z.leb_spec 1 (10 * m1 + m2)); [|lia].
  destruct (Z.leb_spec (10 * m1 + m2) 12); [|lia].
  destruct (Z.leb_spec 1 (10 * d1 + d2)); [|lia].
  destruct (Z.leb_spec (10 * d1 + d2)
              (JS.DaysInMonth (1000 * y1 + 100 * y2 + 10 * y3 + y4)
                 (10 * m1 + m2 - 1))); [|lia].
  reflexivity.
Qed.

Lemma MakeDay_range (y m d : Z) :
  0 <= y <= 9999 -> valid_civil y m d ->
  - 719528 <= JS.MakeDay y m d <= 2932896.
Proof.
  intros Hy Hv. pose proof (MakeDay_within_year y m d Hv) as [Hlo Hhi].
  pose proof (DayFromYear_mono 0 y ltac:(lia)).
  pose proof (DayFromYear_mono (y + 1) 10000 ltac:(lia)).
  change (JS.DayFromYear 0) with (- 719528) in *.
  change (JS.DayFromYear 10000) with 2932897 in *. lia.
Qed.

(** The time value of a calendar date is a whole number of days, and small
    enough for differences of two of them to be exact. *)
Lemma parseISODate_midnight (s : string) (t : Z) :
  JS.parseISODate s = Some t ->
  exists k, t = k * JS.msPerDay /\ JS.Day t = k /\ - 719528 <= k <= 2932896.
Proof.
  intro H. apply parseISODate_inv in H
    as (y1 & y2 & y3 & y4 & m1 & m2 & d1 & d2 & Hy & Hmd & _ & Hv & ->).
  eexists. split; [|split].
  - unfold JS.MakeDate. rewrite Z.add_0_r. reflexivity.
  - apply Day_MakeDate.
  - apply MakeDay_range; [lia | assumption].
Qed.

Lemma ceil_days_exact (k : Z) :
  Z.abs k <= 3652424 ->
  - (- Z.abs (JS.round_double (k * JS.msPerDay)) / 86400000) = Z.abs k.
Proof.
  intro Hk. unfold JS.round_double, JS.msPerDay.
  destruct (Z.leb_spec (Z.abs (k * 86400000)) (2 ^ 53)) as [_|Hbig].
  - rewrite Z.abs_mul. change (Z.abs 86400000) with 86400000.
    rewrite <- Z.mul_opp_l, Z.div_mul by discriminate. lia.
  - exfalso. rewrite Z.abs_mul in Hbig.
    change (Z.abs 86400000) with 86400000 in Hbig.
    change (2 ^ 53) with 9007199254740992 in Hbig. lia.
Qed.

Section MoreOnDuration.

Variable engineParse : string -> JS.number.

Lemma Date_parse_calendar (s : string) (t : Z) :
  JS.parseISODate s = Some t -> Date_parse engineParse s = Some t.
Proof. intro H. unfold Date_parse. now rewrite H. Qed.

(** For two calendar dates YYYY-MM-DD the duration is the one of the exact
    number of days between them: [getDuration] formats the distance between
    the two day numbers, with no rounding-up of a partial day. *)
Theorem getDuration_calendar_days (e : Env) (p : WorkoutPlan) (a b : Z) :
  plan e = Some p ->
  JS.parseISODate (startDate p) = Some a ->
  JS.parseISODate (endDate p) = Some b ->
  getDuration engineParse e = formatDays (Z.abs (JS.Day b - JS.Day a)).
Proof.
  intros Hp Ha Hb.
  rewrite (getDuration_format engineParse e p a b Hp
             (Date_parse_calendar _ _ Ha) (Date_parse_calendar _ _ Hb)).
  apply parseISODate_midnight in Ha as (ka & -> & -> & Ra).
  apply parseISODate_midnight in Hb as (kb & -> & -> & Rb).
  cbv zeta. rewrite <- Z.mul_sub_distr_r.
  rewrite ceil_days_exact by lia. reflexivity.
Qed.

(** A date that [new Date] cannot read makes the duration "NaN month". *)
Theorem getDuration_invalid_date (e : Env) (p : WorkoutPlan) :
  plan e = Some p ->
  Date_parse engineParse (startDate p) = None
  \/ Date_parse engineParse (endDate p) = None ->
  getDuration engineParse e = "NaN month".
Proof.
  intros Hp H. unfold getDuration. rewrite Hp.
  unfold new_Date, JS.getTime. simpl JS.DateValue.
  destruct H as [-> | ->];
    [destruct (Date_parse engineParse (endDate p))|]; reflexivity.
Qed.

(** A plan that starts and ends on the same date string lasts "0 days"
    when the date is readable. *)
Theorem getDuration_same_date (e : Env) (p : WorkoutPlan) (a : Z) :
  plan e = Some p ->
  startDate p = endDate p ->
  Date_parse engineParse (startDate p) = Some a ->
  getDuration engineParse e = "0 days".
Proof.
  intros Hp Heq Ha.
  rewrite (getDuration_format engineParse e p a a Hp Ha);
    [|now rewrite <- Heq].
  rewrite Z.sub_diag. reflexivity.
Qed.

(** The shapes a duration can take when both dates are readable: up to six
    days, one to four weeks, or months from one on; never "0 weeks" or
    "0 months". *)
Theorem getDuration_shapes (e : Env) (p : WorkoutPlan) (a b : Z) :
  plan e = Some p ->
  Date_parse engineParse (startDate p) = Some a ->
  Date_parse engineParse (endDate p) = Some b ->
  exists n,
    (0 <= n <= 6
     /\ getDuration engineParse e = JS.num_to_string (Some n) ++ " days")
    \/ (n = 1 /\ getDuration engineParse e = "1 week")
    \/ (2 <= n <= 4
        /\ getDuration engineParse e = JS.num_to_string (Some n) ++ " weeks")
    \/ (n = 1 /\ getDuration engineParse e = "1 month")
    \/ (2 <= n
        /\ getDuration engineParse e
           = JS.num_to_string (Some n) ++ " months").
Proof.
  intros Hp Ha Hb. rewrite (getDuration_format engineParse e p a b Hp Ha Hb).
  cbv zeta.
  set (d := - (- Z.abs (JS.round_double (b - a)) / 86400000)).
  assert (Hd : 0 <= d).
  { unfold d. pose proof (Z.abs_nonneg (JS.round_double (b - a))).
    Z.div_mod_to_equations. lia. }
  destruct (Z.ltb_spec d 7).
  - exists d. left. split; [lia | reflexivity].
  - destruct (Z.ltb_spec d 30).
    + exists (d / 7). destruct (Z.ltb_spec 1 (d / 7)).
      * right. right. left. split; [|reflexivity].
        Z.div_mod_to_equations. lia.
      * right. left. assert (d / 7 = 1) as -> by
          (Z.div_mod_to_equations; lia).
        split; reflexivity.
    + exists (d / 30). destruct (Z.ltb_spec 1 (d / 30)).
      * right. right. right. right. split; [lia | reflexivity].
      * right. right. right. left. assert (d / 30 = 1) as -> by
          (Z.div_mod_to_equations; lia).
        split; reflexivity.
Qed.

End MoreOnDuration.

(** ** The order of date strings is the order of the days *)

Lemma str_lt_dateChars (y1 y2 y3 y4 m1 m2 d1 d2 : Z)
    (y1' y2' y3' y4' m1' m2' d1' d2' : Z) :
  (0 <= y1 <= 9 /\ 0 <= y2 <= 9 /\ 0 <= y3 <= 9 /\ 0 <= y4 <= 9) ->
  (0 <= m1 <= 9 /\ 0 <= m2 <= 9 /\ 0 <= d1 <= 9 /\ 0 <= d2 <= 9) ->
  (0 <= y1' <= 9 /\ 0 <= y2' <= 9 /\ 0 <= y3' <= 9 /\ 0 <= y4' <= 9) ->
  (0 <= m1' <= 9 /\ 0 <= m2' <= 9 /\ 0 <= d1' <= 9 /\ 0 <= d2' <= 9) ->
  JS.str_lt (dateChars y1 y2 y3 y4 m1 m2 d1 d2)
    (dateChars y1' y2' y3' y4' m1' m2' d1' d2') = true
  <-> civil_lt (1000 * y1 + 100 * y2 + 10 * y3 + y4) (10 * m1 + m2)
        (10 * d1 + d2)
        (1000 * y1' + 100 * y2' + 10 * y3' + y4') (10 * m1' + m2')
        (10 * d1' + d2').
Proof.
  intros (?&?&?&?) (?&?&?&?) (?&?&?&?) (?&?&?&?).
  unfold dateChars, civil_lt. cbn [JS.str_lt].
  rewrite !code_unit_chr by assumption. rewrite !N.eqb_refl.
  repeat match goal with
         | |- context [(?a =? ?b)%N] => destruct (N.eqb_spec a b)
         end;
    rewrite ?N.ltb_lt; lia.
Qed.

Lemma MakeDay_lt (y1 m1 d1 y2 m2 d2 : Z) :
  valid_civil y1 m1 d1 -> valid_civil y2 m2 d2 ->
  civil_lt y1 m1 d1 y2 m2 d2 -> JS.MakeDay y1 m1 d1 < JS.MakeDay y2 m2 d2.
Proof.
  intros V1 V2 [Hy|[-> Hmd]].
  - pose proof (MakeDay_within_year _ _ _ V1) as [_ H1].
    pose proof (MakeDay_within_year _ _ _ V2) as [H2 _].
    pose proof (DayFromYear_mono (y1 + 1) y2 ltac:(lia)). lia.
  - destruct V1 as [M1 D1], V2 as [M2 D2].
    unfold JS.MakeDay, JS.DaysInMonth in *.
    destruct (JS.DaysInYear y2 =? 366);
      month_cases m1; simpl in D1;
      (assert (m2 = 0 \/ m2 = 1 \/ m2 = 2 \/ m2 = 3 \/ m2 = 4 \/ m2 = 5
               \/ m2 = 6 \/ m2 = 7 \/ m2 = 8 \/ m2 = 9 \/ m2 = 10
               \/ m2 = 11) as Hc2 by lia;
       repeat (destruct Hc2 as [Hc2|Hc2]); subst m2; simpl in *; lia).
Qed.

Lemma MakeDay_lt_iff (y1 m1 d1 y2 m2 d2 : Z) :
  valid_civil y1 m1 d1 -> valid_civil y2 m2 d2 ->
  (JS.MakeDay y1 m1 d1 < JS.MakeDay y2 m2 d2 <-> civil_lt y1 m1 d1 y2 m2 d2).
Proof.
  intros V1 V2. split; [|now apply MakeDay_lt].
  intro Hlt.
  assert (Htri : civil_lt y1 m1 d1 y2 m2 d2
                 \/ (y1 = y2 /\ m1 = m2 /\ d1 = d2)
                 \/ civil_lt y2 m2 d2 y1 m1 d1) by (unfold civil_lt; lia).
  destruct Htri as [H|[(-> & -> & ->)|H]]; [assumption|lia|].
  pose proof (MakeDay_lt _ _ _ _ _ _ V2 V1 H). lia.
Qed.

(** The day of a time value, as year, month and day of the month. *)
Lemma civil_of_time (t : Z) :
  valid_civil (JS.YearFromTime t) (JS.MonthFromTime t) (JS.DateFromTime t)
  /\ JS.MakeDay (JS.YearFromTime t) (JS.MonthFromTime t) (JS.DateFromTime t)
     = JS.Day t.
Proof.
  pose proof (YearFromTime_spec t) as [Hlo Hhi].
  rewrite DayFromYear_step in Hhi.
  pose proof (DaysInYear_pos (JS.YearFromTime t)) as Hy.
  unfold valid_civil, JS.MakeDay, JS.DaysInMonth, JS.DateFromTime,
    JS.MonthFromTime, JS.InLeapYear, JS.DayWithinYear.
  set (y := JS.YearFromTime t) in *.
  set (dwy := JS.Day t - JS.DayFromYear y).
  assert (Hd : 0 <= dwy < JS.DaysInYear y) by (unfold dwy; lia).
  assert (Hday : JS.Day t = JS.DayFromYear y + dwy) by (unfold dwy; lia).
  rewrite Hday. clearbody dwy.
  destruct (Z.eqb_spec (JS.DaysInYear y) 366) as [E|E]; cbn [JS.MonthStart];
    repeat match goal with
           | |- context [?a <? ?b] => destruct (Z.ltb_spec a b)
           end; cbn [JS.MonthStart]; simpl; lia.
Qed.

Lemma padded4_digits (y : Z) :
  0 <= y <= 9999 ->
  JS.padded 4 y
  = String (chr (y / 1000)) (String (chr (y / 100 mod 10))
      (String (chr (y / 10 mod 10)) (String (chr (y mod 10)) EmptyString))).
Proof.
  intro Hy.
  assert (Hall : forallb
            (fun n =>
               String.eqb (JS.padded 4 (Z.of_nat n))
                 (String (chr (Z.of_nat n / 1000))
                    (String (chr (Z.of_nat n / 100 mod 10))
                       (String (chr (Z.of_nat n / 10 mod 10))
                          (String (chr (Z.of_nat n mod 10)) EmptyString)))))
            (seq 0 (Z.to_nat 10000)) = true) by (vm_compute; reflexivity).
  rewrite forallb_forall in Hall.
  specialize (Hall (Z.to_nat y)). rewrite Z2Nat.id in Hall by lia.
  apply String.eqb_eq, Hall, in_seq. lia.
Qed.

Lemma padded2_digits (n : Z) :
  0 <= n <= 99 ->
  JS.padded 2 n = String (chr (n / 10)) (String (chr (n mod 10)) EmptyString).
Proof.
  intro Hn.
  assert (Hall : forallb
            (fun k =>
               String.eqb (JS.padded 2 (Z.of_nat k))
                 (String (chr (Z.of_nat k / 10))
                    (String (chr (Z.of_nat k mod 10)) EmptyString)))
            (seq 0 (Z.to_nat 100)) = true) by (vm_compute; reflexivity).
  rewrite forallb_forall in Hall.
  specialize (Hall (Z.to_nat n)). rewrite Z2Nat.id in Hall by lia.
  apply String.eqb_eq, Hall, in_seq. lia.
Qed.

Lemma DaysInMonth_le (y m : Z) : 0 <= m <= 11 -> JS.DaysInMonth y m <= 31.
Proof.
  intro Hm. unfold JS.DaysInMonth.
  destruct (JS.DaysInYear y =? 366); month_cases m; simpl; lia.
Qed.

(** In the years 0 to 9999 the date of a time value is a calendar date
    string of eight digits. *)
Lemma utcDate_dateChars (t : Z) :
  0 <= JS.YearFromTime t <= 9999 ->
  utcDate t
  = dateChars (JS.YearFromTime t / 1000) (JS.YearFromTime t / 100 mod 10)
      (JS.YearFromTime t / 10 mod 10) (JS.YearFromTime t mod 10)
      ((JS.MonthFromTime t + 1) / 10) ((JS.MonthFromTime t + 1) mod 10)
      (JS.DateFromTime t / 10) (JS.DateFromTime t mod 10).
Proof.
  intro Hy. destruct (civil_of_time t) as [[Hm Hd] _].
  pose proof (DaysInMonth_le (JS.YearFromTime t) _ Hm).
  unfold utcDate, JS.isoYear.
  destruct (Z.leb_spec 0 (JS.YearFromTime t)); [|lia].
  destruct (Z.leb_spec (JS.YearFromTime t) 9999); [|lia]. cbn [andb].
  rewrite padded4_digits by assumption.
  rewrite !padded2_digits by lia. reflexivity.
Qed.

(** The date string of today reads back as the midnight that begins
    today. *)
Lemma parseISODate_utcDate (t : Z) :
  0 <= JS.YearFromTime t <= 9999 ->
  JS.parseISODate (utcDate t) = Some (JS.Day t * JS.msPerDay).
Proof.
  intro Hy. destruct (civil_of_time t) as [[Hm Hd] Hday].
  pose proof (DaysInMonth_le (JS.YearFromTime t) _ Hm) as Hle.
  rewrite utcDate_dateChars by assumption.
  set (Y := JS.YearFromTime t) in *. set (M := JS.MonthFromTime t) in *.
  set (D := JS.DateFromTime t) in *.
  assert (EY : 1000 * (Y / 1000) + 100 * (Y / 100 mod 10)
               + 10 * (Y / 10 mod 10) + Y mod 10 = Y)
    by (Z.div_mod_to_equations; lia).
  assert (EM : 10 * ((M + 1) / 10) + (M + 1) mod 10 - 1 = M)
    by (Z.div_mod_to_equations; lia).
  assert (ED : 10 * (D / 10) + D mod 10 = D)
    by (Z.div_mod_to_equations; lia).
  rewrite parseISODate_dateChars.
  - rewrite EY, EM, ED, Hday. unfold JS.MakeDate. now rewrite Z.add_0_r.
  - repeat split; Z.div_mod_to_equations; lia.
  - repeat split; Z.div_mod_to_equations; lia.
  - rewrite EY, EM, ED. now split.
Qed.

(** Between two calendar date strings, the order of the strings is the
    order of their time values. *)
Lemma str_lt_chronological (s1 s2 : string) (t1 t2 : Z) :
  JS.parseISODate s1 = Some t1 -> JS.parseISODate s2 = Some t2 ->
  (JS.str_lt s1 s2 = true <-> t1 < t2).
Proof.
  intros H1 H2.
  apply parseISODate_inv in H1
    as (y1 & y2 & y3 & y4 & m1 & m2 & d1 & d2 & Hy & Hmd & -> & Hv & ->).
  apply parseISODate_inv in H2
    as (y1' & y2' & y3' & y4' & m1' & m2' & d1' & d2'
        & Hy' & Hmd' & -> & Hv' & ->).
  rewrite str_lt_dateChars by assumption.
  unfold JS.MakeDate, JS.msPerDay.
  transitivity
    (JS.MakeDay (1000 * y1 + 100 * y2 + 10 * y3 + y4) (10 * m1 + m2 - 1)
       (10 * d1 + d2)
     < JS.MakeDay (1000 * y1' + 100 * y2' + 10 * y3' + y4')
         (10 * m1' + m2' - 1) (10 * d1' + d2')); [|lia].
  rewrite MakeDay_lt_iff by assumption. unfold civil_lt. lia.
Qed.

(** For a plan whose two dates are calendar dates YYYY-MM-DD, in the years
    0 to 9999 of the clock: the status is Completed exactly when the end
    date lies before the UTC midnight that begins today, Upcoming exactly
    when the end date does not and the start date lies after that
    midnight, and Active exactly when that midnight lies between the two
    dates, ends included. *)
Theorem getPlanStatus_chronological (e : Env) (p : WorkoutPlan) (a b : Z) :
  plan e = Some p ->
  JS.parseISODate (startDate p) = Some a ->
  JS.parseISODate (endDate p) = Some b ->
  0 <= JS.YearFromTime (now e) <= 9999 ->
  exists r,
    getPlanStatus e = JS.Normal r
    /\ (status r = "Completed" <-> b < JS.Day (now e) * JS.msPerDay)
    /\ (status r = "Upcoming"
        <-> JS.Day (now e) * JS.msPerDay <= b
            /\ JS.Day (now e) * JS.msPerDay < a)
    /\ (status r = "Active"
        <-> a <= JS.Day (now e) * JS.msPerDay <= b).
Proof.
  intros Hp Ha Hb Hy. rewrite (getPlanStatus_present e p Hp).
  pose proof (parseISODate_utcDate (now e) Hy) as Ht.
  pose proof (str_lt_chronological _ _ _ _ Hb Ht) as Hend.
  pose proof (str_lt_chronological _ _ _ _ Ht Ha) as Hstart.
  eexists. split; [reflexivity|].
  destruct (JS.str_lt (endDate p) (utcDate (now e)));
    [|destruct (JS.str_lt (utcDate (now e)) (startDate p))]; simpl.
  - assert (b < JS.Day (now e) * JS.msPerDay) by now apply Hend.
    repeat split; try discriminate; try reflexivity; try assumption; lia.
  - assert (~ b < JS.Day (now e) * JS.msPerDay)
      by (intro Hx; apply Hend in Hx; discriminate).
    assert (JS.Day (now e) * JS.msPerDay < a) by now apply Hstart.
    repeat split; try discriminate; try reflexivity; lia.
  - assert (~ b < JS.Day (now e) * JS.msPerDay)
      by (intro Hx; apply Hend in Hx; discriminate).
    assert (~ JS.Day (now e) * JS.msPerDay < a)
      by (intro Hx; apply Hstart in Hx; discriminate).
    repeat split; try discriminate; try reflexivity; lia.
Qed.

(** ** Instances of the further properties *)

Lemma loadPlanDetails_without_plan_witness :
  Component.plan (state (snd (loadPlanDetails SampleLoad.missing "plan-9"
                                SampleLoad.stale)))
    = Some (Sample.mkPlan "2023-06-01" "2023-06-30")
  /\ Component.client (state (snd (loadPlanDetails SampleLoad.missing "plan-9"
                                     SampleLoad.stale)))
     = Some (mapClient SampleLoad.ben)
  /\ Component.templates
       (state (snd (loadPlanDetails SampleLoad.missing "plan-9"
                      SampleLoad.stale)))
     = [Sample.pushDay]
  /\ console (snd (loadPlanDetails SampleLoad.missing "plan-9"
                     SampleLoad.stale)) = [].
Proof.
  apply (loadPlanDetails_without_plan SampleLoad.missing "plan-9"
           SampleLoad.stale).
  intros row H. discriminate.
Defined.

Lemma loadPlanDetails_partial_witness :
  (Component.plan (state (snd (loadPlanDetails SampleLoad.noClients "plan-1"
                                 SampleLoad.stale)))
     = Some (mapPlan SampleLoad.planRow)
   /\ Component.client
        (state (snd (loadPlanDetails SampleLoad.noClients "plan-1"
                       SampleLoad.stale)))
      = Some (mapClient SampleLoad.ben)
   /\ Component.templates
        (state (snd (loadPlanDetails SampleLoad.noClients "plan-1"
                       SampleLoad.stale)))
      = [Sample.pushDay]
   /\ console (snd (loadPlanDetails SampleLoad.noClients "plan-1"
                      SampleLoad.stale))
      = [LogError "Network request failed"])
  /\ (Component.plan
        (state (snd (loadPlanDetails SampleLoad.noTemplates "plan-1"
                       SampleLoad.stale)))
      = Some (mapPlan SampleLoad.planRow)
      /\ Component.templates
           (state (snd (loadPlanDetails SampleLoad.noTemplates "plan-1"
                          SampleLoad.stale)))
         = [Sample.pushDay]
      /\ console (snd (loadPlanDetails SampleLoad.noTemplates "plan-1"
                         SampleLoad.stale))
         = [LogError "Network request failed"]).
Proof.
  split.
  - apply (proj1 (loadPlanDetails_partial SampleLoad.noClients "plan-1"
                    SampleLoad.stale SampleLoad.planRow eq_refl)
             "Network request failed" eq_refl).
  - apply (proj2 (loadPlanDetails_partial SampleLoad.noTemplates "plan-1"
                    SampleLoad.stale SampleLoad.planRow eq_refl)
             [SampleLoad.ben; SampleLoad.anna] "Network request failed"
             eq_refl eq_refl).
Defined.

Lemma loadPlanDetails_success_witness :
  Component.plan (state (snd (loadPlanDetails SampleLoad.healthy "plan-1"
                                freshWorld)))
    = Some (mapPlan SampleLoad.planRow)
  /\ Component.templates
       (state (snd (loadPlanDetails SampleLoad.healthy "plan-1" freshWorld)))
     = [Sample.legDay]
  /\ Component.client
       (state (snd (loadPlanDetails SampleLoad.healthy "plan-1" freshWorld)))
     = Some (mapClient SampleLoad.anna)
  /\ Component.client
       (state (snd (loadPlanDetails
                      {| getWorkoutPlan := getWorkoutPlan SampleLoad.healthy;
                         getTrainerClients := JS.Normal [SampleLoad.ben];
                         getWorkoutTemplatesForPlans :=
                           getWorkoutTemplatesForPlans SampleLoad.healthy |}
                      "plan-1" freshWorld)))
     = None.
Proof.
  pose proof (loadPlanDetails_success SampleLoad.healthy "plan-1" freshWorld
                SampleLoad.planRow [SampleLoad.ben; SampleLoad.anna]
                [Sample.legDay] eq_refl eq_refl eq_refl)
    as (Hp & Ht & _ & Hfound).
  split; [exact Hp|]. split; [exact Ht|]. split.
  - apply (Hfound [SampleLoad.ben] SampleLoad.anna []).
    + reflexivity.
    + simpl. intros u [<-|[]]. discriminate.
    + reflexivity.
  - apply (proj1 (proj2 (proj2
             (loadPlanDetails_success
                {| getWorkoutPlan := getWorkoutPlan SampleLoad.healthy;
                   getTrainerClients := JS.Normal [SampleLoad.ben];
                   getWorkoutTemplatesForPlans :=
                     getWorkoutTemplatesForPlans SampleLoad.healthy |}
                "plan-1" freshWorld SampleLoad.planRow [SampleLoad.ben]
                [Sample.legDay] eq_refl eq_refl eq_refl)))).
    simpl. intros c [<-|[]]. discriminate.
Defined.

Lemma loadPlanDetails_client_of_plan_witness :
  Client.id (mapClient SampleLoad.anna) = clientId (mapPlan SampleLoad.planRow).
Proof.
  apply (loadPlanDetails_client_of_plan SampleLoad.healthy "plan-1");
    reflexivity.
Defined.

Lemma first_load_degraded_witness :
  getTemplateName
    (envOf (state (snd (loadPlanDetails SampleLoad.noClients "plan-1"
                          freshWorld))) Sample.light Sample.jan02)
    (Some "t1") = "Unknown Template"
  /\ clientLabel (state (snd (loadPlanDetails SampleLoad.noClients "plan-1"
                                freshWorld)))
     = "Unknown Client".
Proof.
  assert (Hfail : forall ts,
            getTrainerClients SampleLoad.noClients = JS.Normal ts ->
            forall l,
              getWorkoutTemplatesForPlans SampleLoad.noClients <> JS.Normal l)
    by (intros ts H; discriminate).
  destruct (first_load_degraded SampleLoad.noClients "plan-1"
              SampleLoad.planRow Sample.light Sample.jan02 eq_refl Hfail)
    as [Hname Hclient].
  split.
  - apply Hname. discriminate.
  - apply Hclient. intros ts H. discriminate.
Defined.

Lemma handleStartWorkout_navigates_witness :
  handleStartWorkout SampleLoad.blankEnv Tuesday = [Push "/start-workout/t1"]
  /\ exists p tid,
       plan SampleLoad.blankEnv = Some p
       /\ schedule p Tuesday = Some tid /\ tid <> "".
Proof.
  split.
  - apply (proj1 (handleStartWorkout_navigates SampleLoad.blankEnv Tuesday)
             SampleLoad.blankPlan "t1" eq_refl eq_refl).
    discriminate.
  - apply (proj2 (handleStartWorkout_navigates SampleLoad.blankEnv Tuesday)).
    vm_compute. discriminate.
Defined.

Lemma getDuration_calendar_days_witness :
  getDuration Sample.strictEngine
    (Sample.env (Some (Sample.mkPlan "2024-01-01" "2024-04-01"))
       Sample.light Sample.jan02)
  = formatDays 91.
Proof.
  apply (getDuration_calendar_days Sample.strictEngine
           (Sample.env (Some (Sample.mkPlan "2024-01-01" "2024-04-01"))
              Sample.light Sample.jan02)
           (Sample.mkPlan "2024-01-01" "2024-04-01")
           1704067200000 1711929600000 eq_refl eq_refl eq_refl).
Defined.

Lemma getDuration_invalid_date_witness :
  getDuration Sample.strictEngine SampleLoad.blankEnv = "NaN month".
Proof.
  apply (getDuration_invalid_date Sample.strictEngine SampleLoad.blankEnv
           SampleLoad.blankPlan eq_refl).
  right. reflexivity.
Defined.

Lemma getDuration_same_date_witness :
  getDuration Sample.strictEngine
    (Sample.env (Some (Sample.mkPlan "2024-01-01" "2024-01-01"))
       Sample.light Sample.jan02)
  = "0 days".
Proof.
  apply (getDuration_same_date Sample.strictEngine
           (Sample.env (Some (Sample.mkPlan "2024-01-01" "2024-01-01"))
              Sample.light Sample.jan02)
           (Sample.mkPlan "2024-01-01" "2024-01-01") 1704067200000
           eq_refl eq_refl eq_refl).
Defined.

Lemma getDuration_shapes_witness :
  exists n,
    (0 <= n <= 6
     /\ getDuration Sample.strictEngine
          (Sample.env Sample.threeDays Sample.light Sample.jan02)
        = JS.num_to_string (Some n) ++ " days")
    \/ (n = 1
        /\ getDuration Sample.strictEngine
             (Sample.env Sample.threeDays Sample.light Sample.jan02)
           = "1 week")
    \/ (2 <= n <= 4
        /\ getDuration Sample.strictEngine
             (Sample.env Sample.threeDays Sample.light Sample.jan02)
           = JS.num_to_string (Some n) ++ " weeks")
    \/ (n = 1
        /\ getDuration Sample.strictEngine
             (Sample.env Sample.threeDays Sample.light Sample.jan02)
           = "1 month")
    \/ (2 <= n
        /\ getDuration Sample.strictEngine
             (Sample.env Sample.threeDays Sample.light Sample.jan02)
           = JS.num_to_string (Some n) ++ " months").
Proof.
  apply (getDuration_shapes Sample.strictEngine
           (Sample.env Sample.threeDays Sample.light Sample.jan02)
           (Sample.mkPlan "2024-01-01" "2024-01-03")
           1704067200000 1704240000000 eq_refl eq_refl eq_refl).
Defined.

Lemma getPlanStatus_chronological_witness :
  exists r,
    getPlanStatus (Sample.env Sample.threeDays Sample.light Sample.jan02)
      = JS.Normal r
    /\ (status r = "Completed"
        <-> 1704240000000 < JS.Day Sample.jan02 * JS.msPerDay)
    /\ (status r = "Upcoming"
        <-> JS.Day Sample.jan02 * JS.msPerDay <= 1704240000000
            /\ JS.Day Sample.jan02 * JS.msPerDay < 1704067200000)
    /\ (status r = "Active"
        <-> 1704067200000 <= JS.Day Sample.jan02 * JS.msPerDay
            <= 1704240000000).
Proof.
  apply (getPlanStatus_chronological
           (Sample.env Sample.threeDays Sample.light Sample.jan02)
           (Sample.mkPlan "2024-01-01" "2024-01-03")
           1704067200000 1704240000000 eq_refl eq_refl eq_refl).
  vm_compute. split; discriminate.
Defined.

Lemma mondayOnly_weekdayKeys : weekdayKeys SampleObject.mondayOnly.
Proof.
  split.
  - simpl. constructor; [simpl; tauto | constructor].
  - simpl. intros k [<-|[]]. now exists Monday.
Qed.

Lemma Raw_rows_start_button_witness :
  (startButton (Raw.scheduleRow SampleLoad.blankEnv SampleObject.mondayOnly
                  Wednesday) = true
   /\ Raw.handleStartWorkout (Some SampleObject.mondayOnly) Wednesday = [])
  /\ workoutName (Raw.scheduleRow SampleLoad.blankEnv SampleObject.mondayOnly
                    Wednesday) = "Rest Day"
  /\ restDay (Raw.scheduleRow SampleLoad.blankEnv SampleObject.mondayOnly
                Wednesday) = false
  /\ restDay (Raw.scheduleRow SampleLoad.blankEnv SampleObject.blankTuesday
                Wednesday) = true
  /\ workoutName (Raw.scheduleRow SampleLoad.blankEnv
                    SampleObject.blankTuesday Wednesday) = "Rest Day".
Proof.
  assert (Hin : forall o d,
            In (Raw.scheduleRow SampleLoad.blankEnv o d)
              (Raw.scheduleRows SampleLoad.blankEnv o)).
  { intros o d. apply in_map, daysOfWeek_complete. }
  destruct (proj2 (Raw_rows_start_button SampleLoad.blankEnv
                     SampleObject.mondayOnly) _
              (Hin SampleObject.mondayOnly Wednesday))
    as (_ & _ & _ & Hdead & Hname).
  destruct (proj2 (Raw_rows_start_button SampleLoad.blankEnv
                     SampleObject.blankTuesday) _
              (Hin SampleObject.blankTuesday Wednesday))
    as (_ & Hrest & Hrestname & _ & _).
  split; [apply Hdead; left; reflexivity|].
  split; [apply Hname; left; reflexivity|].
  split; [apply Hname; left; reflexivity|].
  split; [apply Hrest; reflexivity|].
  apply Hrestname, Hrest. reflexivity.
Defined.

Lemma Raw_workouts_vs_start_buttons_witness :
  Raw.getWorkoutsPerWeek (Some SampleObject.mondayOnly)
    <= Z.of_nat (List.length
                   (filter startButton
                      (Raw.scheduleRows SampleLoad.blankEnv
                         SampleObject.mondayOnly)))
  /\ Raw.getWorkoutsPerWeek (Some SampleObject.fullWeek)
     = Z.of_nat (List.length
                   (filter startButton
                      (Raw.scheduleRows SampleLoad.blankEnv
                         SampleObject.fullWeek))).
Proof.
  split.
  - apply (proj1 (Raw_workouts_vs_start_buttons SampleLoad.blankEnv
                    SampleObject.mondayOnly mondayOnly_weekdayKeys)).
  - apply (proj2 (Raw_workouts_vs_start_buttons SampleLoad.blankEnv
                    SampleObject.fullWeek
                    (ofSchedule_weekdayKeys _))).
    intros d. destruct d; split; discriminate.
Defined.

Lemma Raw_getWorkoutsPerWeek_bounds_witness :
  Raw.getWorkoutsPerWeek (Some SampleObject.mondayOnly) <= 7.
Proof.
  apply (proj2 (Raw_getWorkoutsPerWeek_bounds SampleObject.mondayOnly)).
  exact mondayOnly_weekdayKeys.
Defined.
